(** * Dream journal: analysis, insights, search and record creation

    A shallow embedding of [dream_journal_streamlit.py] (class
    [DreamJournal]) and the properties of its aggregation, insight, search
    and save operations.

    Conventions of the embedding:
    - a Python [str] is a Rocq [string] holding its UTF-8 encoding.
      [str.lower], [str.strip] and the regular expression class [\w] depend
      on the Unicode tables: [save_dream] and [search_dreams] are defined
      for any function in the place of [str.strip] and [str.lower], and the
      functions [lower], [strip] and [findall_words] below are the Python
      ones on ASCII text, so that a statement about them that depends on the
      characters carries the hypothesis that the text is ASCII;
    - a Python [float] is an IEEE 754 binary64 number, a [spec_float] with
      [prec = 53] and [emax = 1024], and every operation rounds to nearest,
      ties to even;
    - a Python [int] is a [Z]; a quotient of two ints is computed as
      CPython does below [2^53], and the statements about the value of a
      quotient of sums carry that bound;
    - a dream is a JSON object: every key may be absent, and [dict.get]
      supplies the default the code names;
    - [self.dreams], the file [dreams.json] and the messages sent to the
      Streamlit page form the state that the methods thread. *)

From Stdlib Require Import List String Ascii ZArith Lia Bool Arith.
From Stdlib Require Import DecimalString SpecFloat Permutation Sorted.
Import ListNotations.

Local Open Scope list_scope.
Local Open Scope string_scope.

(** ** Python strings *)

Module PyStr.

(** Line feed, the separator of ['\n'.join] and [chr(10)]. *)
Definition nl : string := String (ascii_of_nat 10) EmptyString.

(** [str.isspace] on one ASCII character: TAB, LF, VT, FF, CR, the four
    separators FS, GS, RS, US and the space.  The whitespace characters
    outside ASCII are not covered: [strip] below is [str.strip] on ASCII
    text only. *)
Definition is_space (c : ascii) : bool :=
  let n := nat_of_ascii c in
  (((9 <=? n) && (n <=? 13)) || ((28 <=? n) && (n <=? 32)))%nat.

(** [str.lower] on one ASCII character.  Letters outside ASCII are left
    as they are: [lower] below is [str.lower] on ASCII text only. *)
Definition lower_char (c : ascii) : ascii :=
  let n := nat_of_ascii c in
  if ((65 <=? n) && (n <=? 90))%nat then ascii_of_nat (n + 32) else c.

(** [s.lower()] *)
Fixpoint lower (s : string) : string :=
  match s with
  | EmptyString => EmptyString
  | String c r => String (lower_char c) (lower r)
  end.

(** Every character of [s] is an ASCII character. *)
Fixpoint ascii_text (s : string) : bool :=
  match s with
  | EmptyString => true
  | String c r => (nat_of_ascii c <? 128)%nat && ascii_text r
  end.

(** [s.lstrip()] *)
Fixpoint lstrip (s : string) : string :=
  match s with
  | EmptyString => EmptyString
  | String c r => if is_space c then lstrip r else s
  end.

(** [s.rstrip()] *)
Fixpoint rstrip (s : string) : string :=
  match s with
  | EmptyString => EmptyString
  | String c r =>
      match rstrip r with
      | EmptyString => if is_space c then EmptyString else String c EmptyString
      | r' => String c r'
      end
  end.

(** [s.strip()] *)
Definition strip (s : string) : string := rstrip (lstrip s).

(** Truth value of a string: [bool(s)], false exactly for [""]. *)
Definition truthy (s : string) : bool :=
  match s with EmptyString => false | String _ _ => true end.

(** [needle in hay]: [needle] occurs in [hay] as a contiguous block. *)
Fixpoint contains (needle hay : string) : bool :=
  prefix needle hay ||
  match hay with
  | EmptyString => false
  | String _ r => contains needle r
  end.

(** [needle] is a contiguous block of [hay]. *)
Definition occurs_in (needle hay : string) : Prop :=
  exists pre post, hay = pre ++ needle ++ post.

(** [s.split(',')]: the fragments between commas, empty ones kept. *)
Fixpoint split_comma (s : string) : list string :=
  match s with
  | EmptyString => [EmptyString]
  | String c r =>
      if Ascii.eqb c ","%char then EmptyString :: split_comma r
      else match split_comma r with
           | h :: t => String c h :: t
           | [] => [String c EmptyString]
           end
  end.

(** [sep.join(parts)] *)
Definition join (sep : string) (parts : list string) : string :=
  String.concat sep parts.

(** [s[:n]] *)
Definition take (n : nat) (s : string) : string := substring 0 n s.

(** [s * n] *)
Fixpoint repeat (s : string) (n : nat) : string :=
  match n with
  | O => EmptyString
  | S k => s ++ repeat s k
  end.

(** [str(n)] for an int. *)
Definition of_int (n : Z) : string := NilZero.string_of_int (Z.to_int n).

(** The class [\w] on one ASCII character: letters, digits, underscore.
    Letters and digits outside ASCII are not covered: [findall_words] below
    is [re.findall] on ASCII text only. *)
Definition is_word_char (c : ascii) : bool :=
  let n := nat_of_ascii c in
  (((48 <=? n) && (n <=? 57)) || ((65 <=? n) && (n <=? 90)) ||
   ((97 <=? n) && (n <=? 122)) || (n =? 95))%nat.

(** [re.findall(r'\b\w+\b', s)]: the maximal runs of word characters, left
    to right.  [cur] is the run being read, in reverse. *)
Fixpoint words_from (cur : list ascii) (s : string) : list string :=
  let flush rest :=
    match cur with
    | [] => rest
    | _ => string_of_list_ascii (rev cur) :: rest
    end in
  match s with
  | EmptyString => flush []
  | String c r =>
      if is_word_char c then words_from (c :: cur) r
      else flush (words_from [] r)
  end.

Definition findall_words (s : string) : list string := words_from [] s.

End PyStr.

(** ** Python floats *)

Module PyFloat.

Definition float := spec_float.

Definition prec : Z := 53.
Definition emax : Z := 1024.

(** [float(n)] for an int [n]; exact when [|n| < 2^53]. *)
Definition of_int (n : Z) : float := binary_normalize prec emax n 0 false.

Definition mul (x y : float) : float := SFmul prec emax x y.
Definition div (x y : float) : float := SFdiv prec emax x y.
Definition ltb (x y : float) : bool := SFltb x y.
Definition eqb (x y : float) : bool := SFeqb x y.

(** The literal [0.1]: the binary64 number nearest to one tenth. *)
Definition lit_0_1 : float := S754_finite false 7205759403792794 (-56).
(** The literal [-0.1]. *)
Definition lit_m0_1 : float := S754_finite true 7205759403792794 (-56).

(** Nearest integer to [n / d] for [0 <= n], [0 < d], ties to even. *)
Definition div_half_even (n d : Z) : Z :=
  let q := (n / d)%Z in
  match (2 * (n mod d) ?= d)%Z with
  | Lt => q
  | Gt => (q + 1)%Z
  | Eq => if Z.even q then q else (q + 1)%Z
  end.

(** [|x| * 10] rounded to an integer, for [|x| = m * 2^e]. *)
Definition tenths (m : positive) (e : Z) : Z :=
  if (0 <=? e)%Z then (Zpos m * 2 ^ e * 10)%Z
  else div_half_even (Zpos m * 10) (2 ^ (- e)).

Definition sign_str (s : bool) : string := if s then "-" else "".

(** [format(x, '.1f')]: one digit after the point, the exact value of
    [x] rounded to the nearest tenth, ties to even. *)
Definition format_1f (x : float) : string :=
  match x with
  | S754_zero s => sign_str s ++ "0.0"
  | S754_infinity s => sign_str s ++ "inf"
  | S754_nan => "nan"
  | S754_finite s m e =>
      let t := tenths m e in
      sign_str s ++ PyStr.of_int (t / 10) ++ "." ++ PyStr.of_int (t mod 10)
  end.

End PyFloat.

(** ** Sorting and counting *)

Module PySort.

(** [a] stands at a position of [l] and [b] at a later one. *)
Definition before {A : Type} (a b : A) (l : list A) : Prop :=
  exists l1 l2, l = (l1 ++ a :: l2)%list /\ In b l2.

(** [a] occurs in [l], and [b] does not occur before the first [a]. *)
Definition first_seen_before {A : Type} (a b : A) (l : list A) : Prop :=
  exists l1 l2, l = (l1 ++ a :: l2)%list /\ ~ In a l1 /\ ~ In b l1.

Section Reverse.
Context {A : Type}.
(** [ltb x y]: the key of [x] is strictly below the key of [y]. *)
Variable ltb : A -> A -> bool.

(** [x] goes behind the elements whose key is strictly above its own and
    in front of every other one. *)
Fixpoint insert_reverse (x : A) (l : list A) : list A :=
  match l with
  | [] => [x]
  | y :: r => if ltb x y then y :: insert_reverse x r else x :: y :: r
  end.

(** [sorted(l, key=..., reverse=True)]: keys descending, and elements
    with equal keys in the order they have in [l] (the sort is stable). *)
Fixpoint sorted_reverse (l : list A) : list A :=
  match l with
  | [] => []
  | x :: r => insert_reverse x (sorted_reverse r)
  end.
End Reverse.

End PySort.

Module Counter.

(** A [collections.Counter] over strings: the keys in the order in which
    they were first counted, each with its count. *)
Definition t := list (string * nat).

(** [c[k] += 1] *)
Fixpoint incr (k : string) (c : t) : t :=
  match c with
  | [] => [(k, 1)]
  | (k', n) :: r =>
      if String.eqb k k' then (k', S n) :: r else (k', n) :: incr k r
  end.

(** [Counter(items)] *)
Definition of_list (items : list string) : t :=
  fold_left (fun c k => incr k c) items [].

(** [c.get(k, 0)] *)
Fixpoint get (c : t) (k : string) : nat :=
  match c with
  | [] => 0
  | (k', n) :: r => if String.eqb k k' then n else get r k
  end.

(** [c.keys()] *)
Definition keys (c : t) : list string := map fst c.

Definition count_ltb (a b : string * nat) : bool := (snd a <? snd b)%nat.

(** [c.most_common(n)]: the [n] largest counts, largest first, equal
    counts in the order of the counter. *)
Definition most_common (n : nat) (c : t) : t :=
  firstn n (PySort.sorted_reverse count_ltb c).

End Counter.

(** ** The journal *)

Module Journal.

Import PyStr.

(** One entry of [self.dreams], as [save_dream] writes it and as
    [json.load] may return it. *)
Record dream : Type := {
  id : option Z;
  date : option string;
  title : option string;
  description : option string;
  emotion : option string;
  lucid : option bool;
  tags : option (list string);
  sleep_quality : option Z;
  sentiment : option string
}.

(** [d.get(key, default)] *)
Definition dget {A : Type} (field : option A) (default : A) : A :=
  match field with
  | Some v => v
  | None => default
  end.

(** What the methods send to the page. *)
Inductive ui_event : Type :=
| st_error (msg : string)
| st_success (msg : string)
| st_info (msg : string).

(** The state: the list [self.dreams] (which is also
    [st.session_state.dreams]), the decoded content of [dreams.json]
    ([None] while the file is missing or unreadable) and the page. *)
Record journal : Type := {
  dreams : list dream;
  dreams_json : option (list dream);
  page : list ui_event
}.

Inductive pyexn : Type := ZeroDivisionError | IndexError.

Inductive outcome (A : Type) : Type :=
| Ok (a : A)
| Raise (e : pyexn).
Arguments Ok {A} a.
Arguments Raise {A} e.

(** A method body: from a state to an outcome and the state it leaves. *)
Definition M (A : Type) : Type := journal -> outcome A * journal.

Definition ret {A : Type} (a : A) : M A := fun st => (Ok a, st).

Definition bind {A B : Type} (m : M A) (k : A -> M B) : M B :=
  fun st =>
    match m st with
    | (Ok a, st') => k a st'
    | (Raise e, st') => (Raise e, st')
    end.

Definition raise {A : Type} (e : pyexn) : M A := fun st => (Raise e, st).

Notation "x <- m ;; k" := (bind m (fun x => k))
  (at level 61, m at next level, right associativity).
Notation "m ;;; k" := (bind m (fun _ => k))
  (at level 61, right associativity).

(** [self.dreams] *)
Definition get_dreams : M (list dream) := fun st => (Ok (dreams st), st).

(** [self.dreams.append(d)] *)
Definition append_dream (d : dream) : M unit :=
  fun st =>
    (Ok tt, {| dreams := (dreams st ++ [d])%list;
               dreams_json := dreams_json st;
               page := page st |}).

(** [json.dump(self.dreams, f)] on a file opened for writing. *)
Definition write_json : M unit :=
  fun st =>
    (Ok tt, {| dreams := dreams st;
               dreams_json := Some (dreams st);
               page := page st |}).

(** [st.error], [st.success], [st.info] *)
Definition emit (e : ui_event) : M unit :=
  fun st =>
    (Ok tt, {| dreams := dreams st;
               dreams_json := dreams_json st;
               page := (page st ++ [e])%list |}).

(** [len(l)] *)
Definition len {A : Type} (l : list A) : Z := Z.of_nat (List.length l).

(** [a / b] on ints: the quotient of the two numbers as binary64 numbers,
    which is how CPython divides ints below [2^53] in absolute value.  From
    [2^53] on CPython rounds the exact quotient once and raises
    [OverflowError] when it is out of range, which this function does not
    follow: the statements that depend on the value of a quotient of sums
    carry the bound [Inv.exact_sums]. *)
Definition truediv (a b : Z) : M PyFloat.float :=
  if (b =? 0)%Z then raise ZeroDivisionError
  else ret (PyFloat.div (PyFloat.of_int a) (PyFloat.of_int b)).

(** [l[0]] *)
Definition item0 {A : Type} (l : list A) : M A :=
  match l with
  | [] => raise IndexError
  | x :: _ => ret x
  end.

(** [str(e)] for the two exceptions. *)
Definition exn_message (e : pyexn) : string :=
  match e with
  | ZeroDivisionError => "division by zero"
  | IndexError => "list index out of range"
  end.

(** [load_dreams]: the content of the file, or the empty list. *)
Definition load_dreams : M (list dream) :=
  fun st => (Ok (dget (dreams_json st) []), st).

(** *** Sentiment and record creation *)

Section World.

(** [TextBlob(text).sentiment.polarity], [None] when it raises. *)
Variable polarity : string -> option PyFloat.float.
(** [datetime.datetime.now().strftime('%Y-%m-%d %H:%M:%S')] *)
Variable now : string.
(** The text of the exception of a failing write of [dreams.json],
    [None] when the write succeeds. *)
Variable write_error : option string.

Definition analyze_sentiment (text : string) : string :=
  match polarity text with
  | Some p =>
      if PyFloat.ltb PyFloat.lit_0_1 p then "positive"
      else if PyFloat.ltb p PyFloat.lit_m0_1 then "negative"
      else "neutral"
  | None => "neutral"
  end.

(** A failing write is taken to fail when the file is opened, which
    leaves the file as it was; a write that fails later has already emptied
    the file.  No statement below is about the file after a failed write. *)
Definition save_dreams : M unit :=
  match write_error with
  | None => write_json
  | Some e => emit (st_error ("Failed to save dreams: " ++ e))
  end.

(** [[tag.strip() for tag in tags.split(',') if tag.strip()]], for any
    function [strip] in the place of [str.strip]. *)
Definition parse_tags_with (strip : string -> string) (tags : string)
    : list string :=
  map strip (filter (fun tag => truthy (strip tag)) (split_comma tags)).

(** [save_dream], for any function [strip] in the place of [str.strip]. *)
Definition save_dream_with (strip : string -> string)
    (title description emotion : string) (lucid : bool)
    (tags : string) (sleep_quality : Z) : M bool :=
  if negb (truthy (strip title)) then
    emit (st_error "Please enter a dream title") ;;;
    ret false
  else if negb (truthy (strip description)) then
    emit (st_error "Please enter a dream description") ;;;
    ret false
  else
    ds <- get_dreams ;;
    let dream :=
      {| id := Some (len ds + 1)%Z;
         date := Some now;
         title := Some (strip title);
         description := Some (strip description);
         emotion := Some emotion;
         lucid := Some lucid;
         tags := Some (parse_tags_with strip tags);
         sleep_quality := Some sleep_quality;
         sentiment := Some (analyze_sentiment (strip description)) |} in
    append_dream dream ;;;
    save_dreams ;;;
    emit (st_success "Dream saved successfully!") ;;;
    ret true.

(** The two with [str.strip] on ASCII text. *)
Definition parse_tags (tags : string) : list string :=
  parse_tags_with strip tags.

Definition save_dream (title description emotion : string) (lucid : bool)
    (tags : string) (sleep_quality : Z) : M bool :=
  save_dream_with strip title description emotion lucid tags sleep_quality.

End World.

(** *** Insights *)

Definition NOT_ENOUGH_DATA : string := "Not enough data for insights.".
Definition KEEP_RECORDING : string :=
  "Keep recording dreams to unlock more insights!".
Definition LUCID_HIGH : string :=
  "• You have a high rate of lucid dreaming! This suggests good dream awareness.".
Definition LUCID_LOW : string :=
  "• Consider practicing lucid dreaming techniques to increase awareness.".
Definition QUALITY_LOW : string :=
  "• Your sleep quality could be improved. Consider sleep hygiene practices.".
Definition QUALITY_HIGH : string :=
  "• You maintain good sleep quality! Keep up the healthy habits.".
Definition SENTIMENT_HIGH : string :=
  "• Your dreams tend to be positive! This may reflect good mental wellbeing.".
Definition SENTIMENT_LOW : string :=
  "• Consider activities that promote positive thoughts before bed.".

(** [sum(1 for dream in ds if dream.get('lucid', False))] *)
Definition lucid_count (ds : list dream) : Z :=
  fold_left (fun acc d => if dget (lucid d) false then (acc + 1)%Z else acc)
    ds 0%Z.

(** [sum(dream.get('sleep_quality', 0) for dream in ds)] *)
Definition quality_sum (ds : list dream) : Z :=
  fold_left (fun acc d => (acc + dget (sleep_quality d) 0)%Z) ds 0%Z.

(** [[dream.get('sentiment', 'neutral') for dream in ds]] *)
Definition sentiments_of (ds : list dream) : list string :=
  map (fun d => dget (sentiment d) "neutral") ds.

(** [l.count(x)] *)
Definition count (x : string) (l : list string) : Z :=
  len (filter (String.eqb x) l).

(** The three rules, each on the list [insights] built so far. *)
Definition lucid_rule (lucid_percentage : PyFloat.float)
    (insights : list string) : list string :=
  if PyFloat.ltb (PyFloat.of_int 20) lucid_percentage then
    (insights ++ [LUCID_HIGH])%list
  else if PyFloat.ltb lucid_percentage (PyFloat.of_int 5) then
    (insights ++ [LUCID_LOW])%list
  else insights.

Definition quality_rule (avg_quality : PyFloat.float)
    (insights : list string) : list string :=
  if PyFloat.ltb avg_quality (PyFloat.of_int 5) then
    (insights ++ [QUALITY_LOW])%list
  else if PyFloat.ltb (PyFloat.of_int 7) avg_quality then
    (insights ++ [QUALITY_HIGH])%list
  else insights.

Definition sentiment_rule (positive_ratio : PyFloat.float)
    (insights : list string) : list string :=
  if PyFloat.ltb (PyFloat.of_int 60) positive_ratio then
    (insights ++ [SENTIMENT_HIGH])%list
  else if PyFloat.ltb positive_ratio (PyFloat.of_int 30) then
    (insights ++ [SENTIMENT_LOW])%list
  else insights.

(** [a / b * 100] *)
Definition percentage (a b : Z) : M PyFloat.float :=
  r <- truediv a b ;;
  ret (PyFloat.mul r (PyFloat.of_int 100)).

(** The list [insights] at the [return] of [generate_insights], for a
    journal that is not empty. *)
Definition insight_list (ds : list dream) : M (list string) :=
  let insights := [] in
  lucid_percentage <- percentage (lucid_count ds) (len ds) ;;
  let insights := lucid_rule lucid_percentage insights in
  avg_quality <- truediv (quality_sum ds) (len ds) ;;
  let insights := quality_rule avg_quality insights in
  let sentiments := sentiments_of ds in
  positive_ratio <- percentage (count "positive" sentiments) (len sentiments) ;;
  let insights := sentiment_rule positive_ratio insights in
  ret insights.

Definition generate_insights : M string :=
  ds <- get_dreams ;;
  match ds with
  | [] => ret NOT_ENOUGH_DATA
  | _ =>
      insights <- insight_list ds ;;
      match insights with
      | [] => ret KEEP_RECORDING
      | _ => ret (join nl insights)
      end
  end.

(** *** Analysis *)

Definition NO_DREAMS : string :=
  "No dreams recorded yet. Start by adding some dreams!".

(** [format_counter(counter_dict, indent)] *)
Definition format_counter (counter_dict : Counter.t) (indent : nat) : string :=
  match counter_dict with
  | [] => "  None"
  | _ =>
      join nl
        (map (fun '(item, n) =>
                repeat "  " indent ++ "• " ++ item ++ ": " ++
                of_int (Z.of_nat n))
             counter_dict)
  end.

(** The loop [for dream in ds: all_tags.extend(dream.get('tags', []))] *)
Definition all_tags (ds : list dream) : list string :=
  fold_left (fun acc d => (acc ++ dget (tags d) [])%list) ds [].

Definition tag_counts (ds : list dream) : Counter.t :=
  Counter.of_list (all_tags ds).

Definition common_tags (ds : list dream) : Counter.t :=
  Counter.most_common 5 (tag_counts ds).

Definition date_ltb (a b : dream) : bool :=
  String.ltb (dget (date a) "") (dget (date b) "").

(** [sorted(ds, key=lambda x: x.get('date', ''), reverse=True)[:5]] *)
Definition recent_dreams (ds : list dream) : list dream :=
  firstn 5 (PySort.sorted_reverse date_ltb ds).

(** [Counter(re.findall(r'\b\w+\b', all_text.lower())).most_common(10)] *)
Definition common_words (ds : list dream) : Counter.t :=
  let all_text := join " " (map (fun d => dget (description d) "") ds) in
  let words := findall_words (lower all_text) in
  Counter.most_common 10 (Counter.of_list words).

Definition recent_line (d : dream) : string :=
  "• " ++ dget (title d) "Untitled" ++ " (" ++
  take 10 (dget (date d) "Unknown date") ++ ")".

(** The lines of the f-string of [get_analysis], in the values it
    interpolates. *)
Definition analysis_lines (total_dreams lucid_dreams : Z)
    (lucid_percentage avg_sleep_quality : PyFloat.float)
    (most_common_emotion : string * nat)
    (emotion_counts sentiment_counts common_tags common_words : Counter.t)
    (recent_dreams : list dream) (insights : string) : list string :=
  [ "";
    "DREAM JOURNAL ANALYSIS";
    repeat "=" 50;
    "";
    "BASIC STATISTICS:";
    "• Total Dreams Recorded: " ++ of_int total_dreams;
    "• Lucid Dreams: " ++ of_int lucid_dreams ++ " (" ++
      PyFloat.format_1f lucid_percentage ++ "%)";
    "• Average Sleep Quality: " ++
      PyFloat.format_1f avg_sleep_quality ++ "/10";
    "";
    "EMOTIONAL PATTERNS:";
    "• Most Common Emotion: " ++ fst most_common_emotion ++ " (" ++
      of_int (Z.of_nat (snd most_common_emotion)) ++ " times)";
    "• Emotion Distribution:";
    format_counter emotion_counts 2;
    "";
    "SENTIMENT ANALYSIS:";
    "• Positive Dreams: " ++
      of_int (Z.of_nat (Counter.get sentiment_counts "positive"));
    "• Negative Dreams: " ++
      of_int (Z.of_nat (Counter.get sentiment_counts "negative"));
    "• Neutral Dreams: " ++
      of_int (Z.of_nat (Counter.get sentiment_counts "neutral"));
    "";
    "COMMON THEMES (Tags):";
    match common_tags with
    | [] => "  No tags found"
    | _ => format_counter common_tags 2
    end;
    "";
    "FREQUENT WORDS IN DREAMS:";
    format_counter common_words 2;
    "";
    "RECENT DREAM TITLES:";
    join nl (map recent_line (firstn 5 recent_dreams));
    "";
    "INSIGHTS:";
    insights;
    "        " ].

(** [[dream.get('emotion', 'Unknown') for dream in ds]] *)
Definition emotions_of (ds : list dream) : list string :=
  map (fun d => dget (emotion d) "Unknown") ds.

Definition get_analysis : M string :=
  ds <- get_dreams ;;
  match ds with
  | [] => ret NO_DREAMS
  | _ =>
      let total_dreams := len ds in
      let lucid_dreams := lucid_count ds in
      avg_sleep_quality <- truediv (quality_sum ds) total_dreams ;;
      let emotions := emotions_of ds in
      let emotion_counts := Counter.of_list emotions in
      most_common_emotion <-
        match emotion_counts with
        | [] => ret ("None", 0)
        | _ => item0 (Counter.most_common 1 emotion_counts)
        end ;;
      let sentiments := sentiments_of ds in
      let sentiment_counts := Counter.of_list sentiments in
      let common_tags := common_tags ds in
      let recent_dreams := recent_dreams ds in
      let common_words := common_words ds in
      lucid_percentage <- percentage lucid_dreams total_dreams ;;
      insights <- generate_insights ;;
      ret (join nl
             (analysis_lines total_dreams lucid_dreams lucid_percentage
                avg_sleep_quality most_common_emotion emotion_counts
                sentiment_counts common_tags common_words recent_dreams
                insights))
  end.

(** [export_analysis]: [None] stands for Python's [None]. *)
Definition export_analysis (now : string) : M (option string) :=
  ds <- get_dreams ;;
  match ds with
  | [] => emit (st_info "No dreams to export!") ;;; ret None
  | _ =>
      fun st =>
        match get_analysis st with
        | (Ok analysis_text, st') =>
            (Ok (Some (join nl
                   [ "DREAM JOURNAL ANALYSIS EXPORT";
                     "Generated on: " ++ now;
                     repeat "=" 60;
                     "";
                     analysis_text ])), st')
        | (Raise e, st') =>
            (emit (st_error ("Failed to export analysis: " ++ exn_message e)) ;;;
             ret None) st'
        end
  end.

(** *** Search *)

(** The condition of the [if] in the loop of [search_dreams], for any
    function [lower] in the place of [str.lower]; [query] is the lowercased
    query. *)
Definition matches_with (lower : string -> string) (query : string)
    (d : dream) : bool :=
  contains query (lower (dget (title d) "")) ||
  contains query (lower (dget (description d) "")) ||
  existsb (fun tag => contains query (lower tag)) (dget (tags d) []).

(** The lowercased query occurs in the lowercased title, in the
    lowercased description or in a lowercased tag. *)
Definition record_matches_with (lower : string -> string) (query : string)
    (d : dream) : Prop :=
  occurs_in (lower query) (lower (dget (title d) "")) \/
  occurs_in (lower query) (lower (dget (description d) "")) \/
  exists tag, In tag (dget (tags d) []) /\
              occurs_in (lower query) (lower tag).

(** [search_dreams], for any function [lower] in the place of
    [str.lower]. *)
Definition search_dreams_with (lower : string -> string) (query : string)
    : M (list dream) :=
  if negb (truthy query) then ret []
  else
    let query := lower query in
    ds <- get_dreams ;;
    ret (fold_left
           (fun results d =>
              if matches_with lower query d then (results ++ [d])%list
              else results)
           ds []).

(** The three with [str.lower] on ASCII text. *)
Definition matches (query : string) (d : dream) : bool :=
  matches_with lower query d.

Definition record_matches (query : string) (d : dream) : Prop :=
  record_matches_with lower query d.

Definition search_dreams (query : string) : M (list dream) :=
  search_dreams_with lower query.

End Journal.

(** ** Values of the analysis when nothing raises *)

Module Stats.

Import Journal.

(** [a / b] for [b <> 0]. *)
Definition ratio (a b : Z) : PyFloat.float :=
  PyFloat.div (PyFloat.of_int a) (PyFloat.of_int b).

(** [a / b * 100] for [b <> 0]. *)
Definition percent (a b : Z) : PyFloat.float :=
  PyFloat.mul (ratio a b) (PyFloat.of_int 100).

Definition lucid_percentage (ds : list dream) : PyFloat.float :=
  percent (lucid_count ds) (len ds).

Definition avg_quality (ds : list dream) : PyFloat.float :=
  ratio (quality_sum ds) (len ds).

Definition positive_ratio (ds : list dream) : PyFloat.float :=
  percent (count "positive" (sentiments_of ds)) (len (sentiments_of ds)).

Definition insights (ds : list dream) : list string :=
  sentiment_rule (positive_ratio ds)
    (quality_rule (avg_quality ds) (lucid_rule (lucid_percentage ds) [])).

Definition most_common_emotion (ds : list dream) : string * nat :=
  hd ("None", 0)
    (Counter.most_common 1 (Counter.of_list (emotions_of ds))).

(** The text [generate_insights] makes of a list of insights. *)
Definition render (l : list string) : string :=
  match l with
  | [] => KEEP_RECORDING
  | _ => PyStr.join PyStr.nl l
  end.

(** The lines of the report of a journal that is not empty. *)
Definition report_lines (ds : list dream) : list string :=
  analysis_lines (len ds) (lucid_count ds) (lucid_percentage ds)
    (avg_quality ds) (most_common_emotion ds)
    (Counter.of_list (emotions_of ds))
    (Counter.of_list (sentiments_of ds))
    (common_tags ds) (common_words ds) (recent_dreams ds)
    (render (insights ds)).

(** A dream with every key present. *)
Definition entry (n : Z) (when what about feeling : string) (aware : bool)
    (labels : list string) (quality : Z) (mood : string) : dream :=
  {| id := Some n; date := Some when; title := Some what;
     description := Some about; emotion := Some feeling;
     lucid := Some aware; tags := Some labels;
     sleep_quality := Some quality; sentiment := Some mood |}.

Definition journal_of (ds : list dream) : journal :=
  {| dreams := ds; dreams_json := Some ds; page := [] |}.

(** Five dreams: one lucid (20 percent), every sleep quality 7, two
    positive (40 percent). *)
Definition five_dreams : list dream :=
  [ entry 1 "2024-03-01 07:10:00" "Stairs" "endless stairs" "Confused"
      true ["stairs"] 7 "neutral";
    entry 2 "2024-03-02 06:55:00" "Beach" "a warm happy beach" "Happy"
      false ["sea"; "sun"] 7 "positive";
    entry 3 "2024-03-03 07:30:00" "Exam" "late for an exam" "Anxious"
      false ["school"] 7 "negative";
    entry 4 "2024-03-04 08:00:00" "Garden" "a lovely garden" "Peaceful"
      false ["garden"; "sun"] 7 "positive";
    entry 5 "2024-03-05 07:45:00" "Train" "a train in the fog" "Curious"
      false [] 7 "neutral" ].

(** Three dreams with sleep qualities 5, 8 and 3. *)
Definition three_dreams : list dream :=
  [ entry 1 "2024-01-02 10:00:00" "Flight" "I was flying high" "Happy"
      true ["flying"; "flying"; "sky"] 5 "positive";
    entry 2 "2024-01-03 10:00:00" "Cave" "dark cave and a cave" "Scared"
      false ["cave"; "sky"] 8 "neutral";
    entry 3 "2024-01-01 10:00:00" "Blank" "nothing" "Sad"
      false [] 3 "negative" ].

End Stats.

(** ** Charts, word cloud and listing *)

Module Views.

Import PyStr Journal.



(** What a [show_...] method can raise besides the exceptions of the
    analysis: [dream['date']] on a dream without the key, [strptime] on a
    text that is no date. *)
Inductive view_exn : Type :=
| KeyError (key : string)
| ValueError
| Arithmetic (e : pyexn).

(** A figure, [None], or an exception that leaves the method. *)
Inductive view_result (A : Type) : Type :=
| Shown (a : A)
| Nothing
| Fails (e : view_exn).
Arguments Shown {A} a.
Arguments Nothing {A}.
Arguments Fails {A} e.

Section Plot.

(** The values of [datetime.datetime]. *)
Variable D : Type.
(** [datetime.datetime.strptime(text, '%Y-%m-%d')], [None] when it raises
    [ValueError]. *)
Variable strptime : string -> option D.







End Plot.

Section Cloud.

(** The images of [WordCloud]. *)
Variable I : Type.
(** [WordCloud(...).generate(text)] and the drawing of the figure: the
    image, or the text of the exception raised. *)
Variable generate : string -> I + string.

(** The loop of [show_word_cloud] that fills [all_text]. *)
Definition cloud_parts (ds : list dream) : list string :=
  fold_left
    (fun all_text d =>
       ((all_text ++ [dget (title d) ""]) ++ [dget (description d) ""]) ++
       dget (tags d) [])%list
    ds [].

Definition show_word_cloud : journal -> view_result I * journal :=
  fun st =>
    match dreams st with
    | [] => (Nothing, snd (emit (st_info "No dreams to visualize yet!") st))
    | ds =>
        let text := join " " (cloud_parts ds) in
        if negb (truthy (strip text)) then
          (Nothing,
           snd (emit (st_info "No text data available for word cloud!") st))
        else
          match generate text with
          | inl image => (Shown image, st)
          | inr e =>
              (Nothing,
               snd (emit (st_error ("Could not generate word cloud: " ++ e)) st))
          end
    end.

End Cloud.




End Views.

(** ** Invariants of a journal *)

Module Inv.

Import Journal.

(** The dream at position [i], counted from 0, has the id [i + 1]. *)
Definition ids_sequential (ds : list dream) : Prop :=
  forall i d, nth_error ds i = Some d -> id d = Some (Z.of_nat i + 1)%Z.

(** Every dream carries one of the three sentiment labels. *)
Definition labelled (ds : list dream) : Prop :=
  forall d, In d ds ->
    sentiment d = Some "positive" \/ sentiment d = Some "negative" \/
    sentiment d = Some "neutral".

(** Every character of [s] is a whitespace character. *)
Fixpoint blank (s : string) : bool :=
  match s with
  | EmptyString => true
  | String c r => PyStr.is_space c && blank r
  end.

(** [c] is a character of [s]. *)
Fixpoint has_char (c : ascii) (s : string) : Prop :=
  match s with
  | EmptyString => False
  | String c' r => c' = c \/ has_char c r
  end.

(** An int that [float] represents exactly, so that CPython divides it as
    a binary64 number. *)
Definition exact_int (n : Z) : Prop := (Z.abs n < 2 ^ 53)%Z.

(** The sum of the sleep qualities and the number of dreams are such
    ints. *)
Definition exact_sums (ds : list dream) : Prop :=
  exact_int (quality_sum ds) /\ exact_int (len ds).

(** The dream that [json.load] returns for the empty object. *)
Definition no_keys : dream :=
  {| id := None; date := None; title := None; description := None;
     emotion := None; lucid := None; tags := None; sleep_quality := None;
     sentiment := None |}.

End Inv.

(** * Properties *)

Import Journal.

(** ** Comparison of binary64 numbers *)

Lemma SFcompare_antisym (x y : spec_float) (c : comparison) :
  SFcompare x y = Some c -> SFcompare y x = Some (CompOpp c).
Proof.
  destruct x as [sx| sx| |sx mx ex], y as [sy| sy| |sy my ey]; simpl;
    try discriminate;
    try (destruct sx; intros [= <-]; reflexivity);
    try (destruct sy; intros [= <-]; reflexivity);
    try (destruct sx, sy; intros [= <-]; reflexivity).
  pose proof (Pos.compare_cont_antisym mx my Eq) as Hm; simpl in Hm.
  destruct sx, sy; intros [= <-]; try reflexivity;
    rewrite (Z.compare_antisym ex ey);
    destruct (ex ?= ey)%Z; simpl; try reflexivity;
    rewrite <- Hm; try rewrite CompOpp_involutive; reflexivity.
Qed.

Lemma ltb_asym (x y : PyFloat.float) :
  PyFloat.ltb x y = true -> PyFloat.ltb y x = false.
Proof.
  unfold PyFloat.ltb, SFltb.
  destruct (SFcompare x y) as [c|] eqn:E; try discriminate.
  rewrite (SFcompare_antisym _ _ _ E).
  destruct c; simpl; congruence.
Qed.



(** Only the number itself compares equal to a finite number that is not
    zero. *)
Lemma eqb_finite (x : PyFloat.float) (s : bool) (m : positive) (e : Z) :
  PyFloat.eqb x (S754_finite s m e) = true -> x = S754_finite s m e.
Proof.
  unfold PyFloat.eqb, SFeqb.
  destruct x as [sx| sx| |sx mx ex]; simpl; try discriminate;
    try (destruct sx; discriminate); try (destruct s; discriminate).
  destruct sx, s; try discriminate;
    rewrite Pos.compare_cont_spec; simpl;
    destruct (Z.compare_spec ex e); try discriminate;
    destruct (Pos.compare_spec mx m); try discriminate;
    intros _; congruence.
Qed.


(** No number is above a positive number and below a negative one. *)
Lemma ltb_pos_neg_excl (m1 m2 : positive) (e1 e2 : Z) (x : PyFloat.float) :
  PyFloat.ltb (S754_finite false m1 e1) x = true ->
  PyFloat.ltb x (S754_finite true m2 e2) = true ->
  False.
Proof.
  unfold PyFloat.ltb, SFltb.
  destruct x as [s| s| |s m e]; simpl; try discriminate;
    destruct s; discriminate.
Qed.

(** ** Running the operations *)

Lemma len_nonzero {A : Type} (l : list A) : l <> [] -> len l <> 0%Z.
Proof. destruct l; [congruence | unfold len; simpl; lia]. Qed.

Lemma truediv_ok (a b : Z) (st : journal) :
  b <> 0%Z -> truediv a b st = (Ok (Stats.ratio a b), st).
Proof.
  intros Hb. unfold truediv.
  destruct (Z.eqb_spec b 0); [contradiction | reflexivity].
Qed.

Lemma truediv_zero (a : Z) (st : journal) :
  truediv a 0 st = (Raise ZeroDivisionError, st).
Proof. reflexivity. Qed.

Lemma percentage_ok (a b : Z) (st : journal) :
  b <> 0%Z -> percentage a b st = (Ok (Stats.percent a b), st).
Proof.
  intros Hb. unfold percentage, bind. rewrite truediv_ok by assumption.
  reflexivity.
Qed.

Lemma sentiments_nonempty (ds : list dream) : ds <> [] -> sentiments_of ds <> [].
Proof. destruct ds; [congruence | discriminate]. Qed.

Lemma insight_list_ok (ds : list dream) (st : journal) :
  ds <> [] -> insight_list ds st = (Ok (Stats.insights ds), st).
Proof.
  intros Hds. unfold insight_list, bind.
  rewrite percentage_ok by (apply len_nonzero; assumption).
  rewrite truediv_ok by (apply len_nonzero; assumption).
  rewrite percentage_ok
    by (apply len_nonzero, sentiments_nonempty; assumption).
  reflexivity.
Qed.

Lemma generate_insights_ok (st : journal) :
  dreams st <> [] ->
  generate_insights st = (Ok (Stats.render (Stats.insights (dreams st))), st).
Proof.
  intros Hds. unfold generate_insights, bind, get_dreams.
  destruct (dreams st) as [|d ds] eqn:E; [congruence|].
  rewrite insight_list_ok by discriminate.
  unfold Stats.render. destruct (Stats.insights (d :: ds)); reflexivity.
Qed.

Lemma generate_insights_empty (st : journal) :
  dreams st = [] -> generate_insights st = (Ok NOT_ENOUGH_DATA, st).
Proof.
  intros Hds. unfold generate_insights, bind, get_dreams. rewrite Hds.
  reflexivity.
Qed.

Lemma generate_insights_total (st : journal) :
  exists text, generate_insights st = (Ok text, st).
Proof.
  destruct (dreams st) as [|d ds] eqn:E.
  - eexists. now apply generate_insights_empty.
  - eexists. apply generate_insights_ok. rewrite E. discriminate.
Qed.

(** ** Which insight is in the list *)









(** ** The stable descending sort *)

Section SortedReverseFacts.

Context {A : Type}.
Variable ltb : A -> A -> bool.

Lemma insert_reverse_perm (x : A) (l : list A) :
  Permutation (PySort.insert_reverse ltb x l) (x :: l).
Proof.
  induction l as [|y r IH]; simpl; [reflexivity|].
  destruct (ltb x y); [|reflexivity].
  rewrite IH. apply perm_swap.
Qed.

Lemma sorted_reverse_perm (l : list A) :
  Permutation (PySort.sorted_reverse ltb l) l.
Proof.
  induction l as [|x r IH]; simpl; [reflexivity|].
  rewrite insert_reverse_perm. now constructor.
Qed.

Lemma sorted_reverse_length (l : list A) :
  List.length (PySort.sorted_reverse ltb l) = List.length l.
Proof. apply Permutation_length, sorted_reverse_perm. Qed.

Lemma sorted_reverse_in (x : A) (l : list A) :
  In x (PySort.sorted_reverse ltb l) <-> In x l.
Proof.
  split; apply Permutation_in;
    [|symmetry]; apply sorted_reverse_perm.
Qed.

Lemma before_cons (a b x : A) (l : list A) :
  PySort.before a b (x :: l) <-> (a = x /\ In b l) \/ PySort.before a b l.
Proof.
  unfold PySort.before. split.
  - intros ([|y l1] & l2 & E & Hb); simpl in E; injection E as -> ->.
    + left. auto.
    + right. eauto.
  - intros [[-> Hb] | (l1 & l2 & -> & Hb)].
    + exists [], l. auto.
    + exists (x :: l1), l2. auto.
Qed.

Lemma before_in (a b : A) (l : list A) :
  PySort.before a b l -> In a l /\ In b l.
Proof.
  intros (l1 & l2 & -> & Hb). rewrite !in_app_iff. simpl. auto.
Qed.

(** The three ways in which [a] comes before [b] once [x] is inserted. *)
Lemma before_insert_reverse (a b x : A) (l : list A) :
  PySort.before a b (PySort.insert_reverse ltb x l) ->
  PySort.before a b l \/ (a = x /\ In b l) \/
  (b = x /\ In a l /\ ltb x a = true).
Proof.
  induction l as [|y r IH]; simpl.
  - rewrite before_cons. intros [[_ []] | (l1 & l2 & E & _)].
    destruct l1; discriminate.
  - destruct (ltb x y) eqn:Hxy.
    + rewrite !before_cons.
      intros [[-> Hb] | Hab].
      * apply (Permutation_in _ (insert_reverse_perm x r)) in Hb.
        destruct Hb as [<- | Hb]; [|auto].
        right. right. simpl. auto.
      * destruct (IH Hab) as [H | [[-> H] | (-> & H & Hlt)]];
          simpl; auto 6.
    + rewrite !before_cons. intros [[-> Hb] | Hab]; auto.
Qed.

(** Stability: two elements whose order the keys do not force keep the
    order they had. *)
Lemma sorted_reverse_stable (a b : A) (l : list A) :
  PySort.before a b (PySort.sorted_reverse ltb l) ->
  ltb b a = false ->
  PySort.before a b l.
Proof.
  induction l as [|x r IH]; simpl; intros Hab Hba.
  - destruct Hab as (l1 & l2 & E & _). destruct l1; discriminate.
  - apply before_insert_reverse in Hab.
    rewrite before_cons.
    destruct Hab as [H | [[-> H] | (-> & _ & Hlt)]].
    + right. auto.
    + left. split; [reflexivity|]. now apply sorted_reverse_in.
    + congruence.
Qed.

Hypothesis ltb_asym : forall x y, ltb x y = true -> ltb y x = false.
Hypothesis ltb_between :
  forall x y z, ltb x z = true -> ltb x y = true \/ ltb y z = true.

Lemma insert_reverse_sorted (x : A) (l : list A) :
  StronglySorted (fun a b => ltb a b = false) l ->
  StronglySorted (fun a b => ltb a b = false) (PySort.insert_reverse ltb x l).
Proof.
  induction 1 as [|y r Hr IH Hy]; simpl.
  - repeat constructor.
  - destruct (ltb x y) eqn:Hxy.
    + constructor; [assumption|].
      apply (Permutation_Forall (Permutation_sym (insert_reverse_perm x r))).
      constructor; auto.
    + constructor; [constructor; assumption|].
      constructor; [assumption|].
      rewrite Forall_forall in *. intros z Hz.
      destruct (ltb x z) eqn:Hxz; [|reflexivity].
      destruct (ltb_between x y z Hxz) as [H | H]; [congruence|].
      rewrite (Hy z Hz) in H. discriminate.
Qed.

Lemma sorted_reverse_sorted (l : list A) :
  StronglySorted (fun a b => ltb a b = false) (PySort.sorted_reverse ltb l).
Proof.
  induction l as [|x r IH]; simpl; [constructor|].
  now apply insert_reverse_sorted.
Qed.

(** Keys descend along the sorted list. *)
Lemma sorted_reverse_descending (a b : A) (l : list A) :
  PySort.before a b (PySort.sorted_reverse ltb l) -> ltb a b = false.
Proof.
  generalize (sorted_reverse_sorted l).
  generalize (PySort.sorted_reverse ltb l) as s.
  induction 1 as [|y r Hr IH Hy]; rewrite ?before_cons.
  - intros (l1 & l2 & E & _). destruct l1; discriminate.
  - intros [[-> Hb] | Hab]; [|auto].
    rewrite Forall_forall in Hy. auto.
Qed.

End SortedReverseFacts.

Lemma before_firstn {A : Type} (a b : A) (n : nat) (l : list A) :
  PySort.before a b (firstn n l) -> PySort.before a b l.
Proof.
  intros (l1 & l2 & E & Hb).
  exists l1, (l2 ++ skipn n l)%list. split.
  - rewrite <- (firstn_skipn n l) at 1. rewrite E, <- app_assoc. reflexivity.
  - apply in_or_app. auto.
Qed.

Lemma before_map {A B : Type} (f : A -> B) (a b : A) (l : list A) :
  PySort.before a b l -> PySort.before (f a) (f b) (map f l).
Proof.
  intros (l1 & l2 & -> & Hb).
  exists (map f l1), (map f l2). split.
  - rewrite map_app. reflexivity.
  - now apply in_map.
Qed.

(** ** Counters *)

Lemma of_list_snoc (l : list string) (k : string) :
  Counter.of_list (l ++ [k]) = Counter.incr k (Counter.of_list l).
Proof. unfold Counter.of_list. rewrite fold_left_app. reflexivity. Qed.

Lemma get_incr (c : Counter.t) (k k' : string) :
  Counter.get (Counter.incr k c) k' =
  if String.eqb k' k then S (Counter.get c k') else Counter.get c k'.
Proof.
  induction c as [|[k0 n] r IH]; simpl.
  - destruct (String.eqb k' k); reflexivity.
  - destruct (String.eqb_spec k k0) as [-> | Hk]; simpl.
    + destruct (String.eqb k' k0); reflexivity.
    + rewrite IH.
      destruct (String.eqb_spec k' k0) as [-> | Hk'];
        destruct (String.eqb_spec k0 k); try reflexivity; congruence.
Qed.

Lemma keys_incr (c : Counter.t) (k : string) :
  Counter.keys (Counter.incr k c) =
  if in_dec string_dec k (Counter.keys c) then Counter.keys c
  else (Counter.keys c ++ [k])%list.
Proof.
  unfold Counter.keys.
  induction c as [|[k0 n] r IH]; simpl; [reflexivity|].
  destruct (String.eqb_spec k k0) as [-> | Hk]; simpl.
  - destruct (string_dec k0 k0); [reflexivity | congruence].
  - rewrite IH.
    destruct (string_dec k0 k); [congruence|].
    destruct (in_dec string_dec k (map fst r)); reflexivity.
Qed.

Lemma get_of_list (l : list string) (k : string) :
  Counter.get (Counter.of_list l) k = count_occ string_dec l k.
Proof.
  revert k. induction l as [|x l IH] using rev_ind; intros k; [reflexivity|].
  rewrite of_list_snoc, get_incr, IH, count_occ_app. simpl.
  destruct (String.eqb_spec k x), (string_dec x k); try congruence; lia.
Qed.

Lemma keys_of_list_in (l : list string) (k : string) :
  In k (Counter.keys (Counter.of_list l)) <-> In k l.
Proof.
  revert k. induction l as [|x l IH] using rev_ind; intros k; [reflexivity|].
  rewrite of_list_snoc, keys_incr. simpl.
  destruct (in_dec string_dec x (Counter.keys (Counter.of_list l))) as [Hx | Hx].
  - rewrite IH, in_app_iff. simpl. split; [tauto|].
    intros [H | [<- | []]]; [assumption|]. now apply IH.
  - rewrite !in_app_iff, IH. simpl. tauto.
Qed.

Lemma keys_of_list_nodup (l : list string) :
  NoDup (Counter.keys (Counter.of_list l)).
Proof.
  induction l as [|x l IH] using rev_ind; [constructor|].
  rewrite of_list_snoc, keys_incr.
  destruct (in_dec string_dec x (Counter.keys (Counter.of_list l))) as [Hx | Hx];
    [assumption|].
  apply NoDup_app; [assumption | repeat constructor; intros [] |].
  intros y Hy [<- | []]. contradiction.
Qed.

(** An entry of a counter without repeated keys carries the count that
    [get] reports. *)
Lemma in_counter_get (c : Counter.t) (k : string) (n : nat) :
  NoDup (Counter.keys c) -> In (k, n) c -> Counter.get c k = n.
Proof.
  induction c as [|[k0 n0] r IH]; simpl; [intros _ []|].
  intros Hnd [[= -> ->] | Hin].
  - now rewrite String.eqb_refl.
  - inversion Hnd as [|? ? Hk0 Hr]; subst.
    destruct (String.eqb_spec k k0) as [-> | Hk]; [|auto].
    exfalso. apply Hk0. change k0 with (fst (k0, n)). now apply in_map.
Qed.

Lemma in_keys_entry (c : Counter.t) (k : string) :
  In k (Counter.keys c) -> In (k, Counter.get c k) c.
Proof.
  induction c as [|[k0 n0] r IH]; simpl; [intros []|].
  destruct (String.eqb_spec k k0) as [-> | Hk]; [auto|].
  intros [H | H]; [congruence | auto].
Qed.

Lemma split_first_occurrence (k : string) (l : list string) :
  In k l -> exists l1 l2, l = (l1 ++ k :: l2)%list /\ ~ In k l1.
Proof.
  induction l as [|x l IH]; simpl; [intros []|].
  destruct (string_dec x k) as [-> | Hx].
  - intros _. exists [], l. auto.
  - intros [H | H]; [congruence|].
    destruct (IH H) as (l1 & l2 & -> & Hl1).
    exists (x :: l1), l2. split; [reflexivity|].
    simpl. tauto.
Qed.

Lemma first_seen_before_snoc (a b x : string) (l : list string) :
  PySort.first_seen_before a b l -> PySort.first_seen_before a b (l ++ [x]).
Proof.
  intros (l1 & l2 & -> & Ha & Hb).
  exists l1, (l2 ++ [x])%list. rewrite <- app_assoc. auto.
Qed.

Lemma before_snoc {A : Type} (a b x : A) (l : list A) :
  PySort.before a b (l ++ [x]) -> PySort.before a b l \/ (b = x /\ In a l).
Proof.
  induction l as [|y l IH]; simpl.
  - intros (l1 & l2 & E & Hb).
    destruct l1 as [|? [|? ?]]; try discriminate.
    injection E as -> <-. destruct Hb.
  - rewrite !before_cons, in_app_iff. simpl.
    intros [[-> [Hb | [<- | []]]] | Hab]; auto.
    destruct (IH Hab) as [H | [-> H]]; auto.
Qed.

(** The keys of a counter stand in the order in which the items were first
    seen. *)
Lemma keys_first_seen (l : list string) (a b : string) :
  PySort.before a b (Counter.keys (Counter.of_list l)) ->
  PySort.first_seen_before a b l.
Proof.
  revert a b. induction l as [|x l IH] using rev_ind; intros a b.
  - intros (l1 & l2 & E & _). destruct l1; discriminate.
  - rewrite of_list_snoc, keys_incr.
    destruct (in_dec string_dec x (Counter.keys (Counter.of_list l))) as [Hx | Hx].
    + intros Hab. apply first_seen_before_snoc. auto.
    + intros Hab. apply before_snoc in Hab.
      destruct Hab as [Hab | [-> Ha]].
      * apply first_seen_before_snoc. auto.
      * apply (proj1 (keys_of_list_in _ _)) in Ha.
        destruct (split_first_occurrence a l Ha) as (l1 & l2 & -> & Hl1).
        exists l1, (l2 ++ [x])%list. rewrite <- app_assoc.
        split; [reflexivity|]. split; [assumption|].
        intros Hxl1. apply Hx, keys_of_list_in, in_or_app. auto.
Qed.

Lemma count_ltb_asym (x y : string * nat) :
  Counter.count_ltb x y = true -> Counter.count_ltb y x = false.
Proof.
  unfold Counter.count_ltb. rewrite Nat.ltb_lt, Nat.ltb_ge. lia.
Qed.

Lemma count_ltb_between (x y z : string * nat) :
  Counter.count_ltb x z = true ->
  Counter.count_ltb x y = true \/ Counter.count_ltb y z = true.
Proof.
  unfold Counter.count_ltb. rewrite !Nat.ltb_lt. lia.
Qed.

Lemma all_tags_flat_map (ds : list dream) :
  all_tags ds = flat_map (fun d => dget (tags d) []) ds.
Proof.
  unfold all_tags.
  assert (H : forall acc,
             fold_left (fun acc d => (acc ++ dget (tags d) [])%list) ds acc =
             (acc ++ flat_map (fun d => dget (tags d) []) ds)%list).
  { induction ds as [|d ds IH]; intros acc; simpl.
    - now rewrite app_nil_r.
    - now rewrite IH, app_assoc. }
  apply H.
Qed.

(** ** The report *)

Lemma of_list_nonempty (x : string) (l : list string) :
  Counter.of_list (x :: l) <> [].
Proof.
  intros E.
  assert (H : In x (Counter.keys (Counter.of_list (x :: l))))
    by (apply keys_of_list_in; simpl; auto).
  rewrite E in H. destruct H.
Qed.

Lemma most_common_nonempty (c : Counter.t) :
  c <> [] -> Counter.most_common 1 c <> [].
Proof.
  intros Hc. unfold Counter.most_common.
  pose proof (sorted_reverse_length Counter.count_ltb c) as Hlen.
  destruct (PySort.sorted_reverse Counter.count_ltb c); [|discriminate].
  destruct c; [congruence | discriminate].
Qed.

Lemma most_common_emotion_ok (ds : list dream) (st : journal) :
  ds <> [] ->
  match Counter.of_list (emotions_of ds) with
  | [] => ret ("None", 0)
  | _ => item0 (Counter.most_common 1 (Counter.of_list (emotions_of ds)))
  end st = (Ok (Stats.most_common_emotion ds), st).
Proof.
  intros Hds. unfold Stats.most_common_emotion.
  destruct ds as [|d ds]; [congruence|].
  pose proof (of_list_nonempty (dget (emotion d) "Unknown") (emotions_of ds))
    as Hne.
  change (dget (emotion d) "Unknown" :: emotions_of ds)
    with (emotions_of (d :: ds)) in Hne.
  pose proof (most_common_nonempty _ Hne) as Hmc.
  destruct (Counter.of_list (emotions_of (d :: ds))) as [|e c];
    [congruence|].
  destruct (Counter.most_common 1 (e :: c)); [congruence | reflexivity].
Qed.

Lemma get_analysis_ok (st : journal) :
  dreams st <> [] ->
  get_analysis st =
  (Ok (PyStr.join PyStr.nl (Stats.report_lines (dreams st))), st).
Proof.
  intros Hds. unfold get_analysis, bind at 1, get_dreams.
  destruct (dreams st) as [|d ds] eqn:E; [congruence|].
  unfold bind at 1. rewrite truediv_ok by (apply len_nonzero; discriminate).
  unfold bind at 1. rewrite most_common_emotion_ok by discriminate.
  unfold bind at 1. rewrite percentage_ok by (apply len_nonzero; discriminate).
  unfold bind at 1. rewrite generate_insights_ok by (rewrite E; discriminate).
  rewrite E. reflexivity.
Qed.

Lemma get_analysis_empty (st : journal) :
  dreams st = [] -> get_analysis st = (Ok NO_DREAMS, st).
Proof.
  intros Hds. unfold get_analysis, bind, get_dreams. rewrite Hds. reflexivity.
Qed.

(** ** Insights, the empty journal and sentiment *)



(** C2. On the empty journal nothing is divided: [get_analysis] returns
    the message that no dreams are recorded, [generate_insights] the message
    that there is not enough data, [export_analysis] returns nothing and
    tells the page so, none of them raises, and the journal keeps its
    dreams and its file.  The quotient that the guard skips would raise
    [ZeroDivisionError]. *)
Theorem C2_empty_journal_no_division (st : journal) (now : string) :
  dreams st = [] ->
  get_analysis st = (Ok NO_DREAMS, st) /\
  generate_insights st = (Ok NOT_ENOUGH_DATA, st) /\
  export_analysis now st =
    (Ok None,
     {| dreams := dreams st; dreams_json := dreams_json st;
        page := (page st ++ [st_info "No dreams to export!"])%list |}) /\
  (forall a, truediv a (len (dreams st)) st = (Raise ZeroDivisionError, st)).
Proof.
  intros Hds.
  split; [now apply get_analysis_empty|].
  split; [now apply generate_insights_empty|].
  split.
  - destruct st as [ds file msgs]. simpl in Hds. subst ds. reflexivity.
  - intros a. rewrite Hds. reflexivity.
Qed.

Lemma C2_empty_journal_no_division_witness :
  let st := {| dreams := []; dreams_json := None; page := [] |} in
  dreams st = [] /\
  get_analysis st = (Ok NO_DREAMS, st) /\
  generate_insights st = (Ok NOT_ENOUGH_DATA, st).
Proof.
  intros st.
  assert (Hds : dreams st = []) by reflexivity.
  destruct (C2_empty_journal_no_division st "2024-03-05 09:00:00" Hds)
    as (Ha & Hi & _).
  split; [exact Hds|]. split; [exact Ha | exact Hi].
Defined.

(** C7. On the empty journal [generate_insights] returns the
    not-enough-data message, and the rules are not evaluated (their first
    quotient would raise).  On a journal that is not empty, whose sum of
    sleep qualities and number of dreams are below 2^53, it returns a text
    and does not raise, and when no rule fires the insight list is empty and
    the text is the keep-recording message. *)
Theorem C7_insights_total (st : journal) :
  (dreams st = [] ->
   generate_insights st = (Ok NOT_ENOUGH_DATA, st) /\
   insight_list (dreams st) st = (Raise ZeroDivisionError, st)) /\
  (dreams st <> [] -> Inv.exact_sums (dreams st) ->
   (exists text, generate_insights st = (Ok text, st)) /\
   (let p := Stats.lucid_percentage (dreams st) in
    let q := Stats.avg_quality (dreams st) in
    let r := Stats.positive_ratio (dreams st) in
    PyFloat.ltb (PyFloat.of_int 20) p = false ->
    PyFloat.ltb p (PyFloat.of_int 5) = false ->
    PyFloat.ltb q (PyFloat.of_int 5) = false ->
    PyFloat.ltb (PyFloat.of_int 7) q = false ->
    PyFloat.ltb (PyFloat.of_int 60) r = false ->
    PyFloat.ltb r (PyFloat.of_int 30) = false ->
    Stats.insights (dreams st) = [] /\
    generate_insights st = (Ok KEEP_RECORDING, st))).
Proof.
  split.
  - intros Hds. split; [now apply generate_insights_empty|].
    rewrite Hds. reflexivity.
  - intros Hds _. split; [apply generate_insights_total|].
    intros p q r H1 H2 H3 H4 H5 H6.
    assert (Hnil : Stats.insights (dreams st) = []).
    { unfold Stats.insights, sentiment_rule, quality_rule, lucid_rule.
      fold p q r. rewrite H1, H2, H3, H4, H5, H6. reflexivity. }
    split; [exact Hnil|].
    rewrite generate_insights_ok by assumption. rewrite Hnil. reflexivity.
Qed.

Lemma C7_insights_total_witness :
  let st := Stats.journal_of Stats.five_dreams in
  let st0 := Stats.journal_of [] in
  dreams st <> [] /\ Inv.exact_sums (dreams st) /\ dreams st0 = [] /\
  generate_insights st = (Ok KEEP_RECORDING, st) /\
  generate_insights st0 = (Ok NOT_ENOUGH_DATA, st0).
Proof.
  intros st st0.
  assert (Hne : dreams st <> []) by discriminate.
  assert (Hsums : Inv.exact_sums (dreams st))
    by (split; vm_compute; reflexivity).
  assert (Hnil : dreams st0 = []) by reflexivity.
  destruct (C7_insights_total st) as (_ & Hfull).
  destruct (C7_insights_total st0) as (Hempty & _).
  destruct (Hfull Hne Hsums) as (_ & Hkeep).
  split; [exact Hne|]. split; [exact Hsums|]. split; [exact Hnil|]. split.
  - apply Hkeep; vm_compute; reflexivity.
  - apply (Hempty Hnil).
Defined.

(** C8. With a polarity score [p] the sentiment is positive exactly when
    [p > 0.1], negative exactly when [p < -0.1], and neutral otherwise, so
    also for [p == 0.1] and [p == -0.1]; when the scorer raises, the
    sentiment is neutral. *)
Theorem C8_sentiment_thresholds (polarity : string -> option PyFloat.float)
    (text : string) :
  (forall p, polarity text = Some p ->
     (analyze_sentiment polarity text = "positive" <->
      PyFloat.ltb PyFloat.lit_0_1 p = true) /\
     (analyze_sentiment polarity text = "negative" <->
      PyFloat.ltb p PyFloat.lit_m0_1 = true) /\
     (analyze_sentiment polarity text = "neutral" <->
      PyFloat.ltb PyFloat.lit_0_1 p = false /\
      PyFloat.ltb p PyFloat.lit_m0_1 = false) /\
     (PyFloat.eqb p PyFloat.lit_0_1 = true ->
      analyze_sentiment polarity text = "neutral") /\
     (PyFloat.eqb p PyFloat.lit_m0_1 = true ->
      analyze_sentiment polarity text = "neutral")) /\
  (polarity text = None -> analyze_sentiment polarity text = "neutral").
Proof.
  split.
  - intros p Hp. unfold analyze_sentiment. rewrite Hp.
    assert (Hexcl : PyFloat.ltb PyFloat.lit_0_1 p = true ->
                    PyFloat.ltb p PyFloat.lit_m0_1 = true -> False)
      by apply ltb_pos_neg_excl.
    split; [|split; [|split; [|split]]].
    + destruct (PyFloat.ltb PyFloat.lit_0_1 p);
        [|destruct (PyFloat.ltb p PyFloat.lit_m0_1)];
        split; intros H; try reflexivity; discriminate.
    + destruct (PyFloat.ltb PyFloat.lit_0_1 p) eqn:E1;
        [|destruct (PyFloat.ltb p PyFloat.lit_m0_1)];
        split; intros H; try reflexivity; try discriminate.
      destruct (Hexcl eq_refl H).
    + destruct (PyFloat.ltb PyFloat.lit_0_1 p);
        [|destruct (PyFloat.ltb p PyFloat.lit_m0_1)];
        split; try intros [H1 H2]; try intros H; auto; discriminate.
    + intros H. apply eqb_finite in H. subst p. vm_compute. reflexivity.
    + intros H. apply eqb_finite in H. subst p. vm_compute. reflexivity.
  - intros Hp. unfold analyze_sentiment. rewrite Hp. reflexivity.
Qed.

Lemma C8_sentiment_thresholds_witness :
  let scorer := fun text : string =>
    if String.eqb text "a calm lake" then Some PyFloat.lit_0_1
    else if String.eqb text "a bright happy day"
         then Some (PyFloat.div (PyFloat.of_int 4) (PyFloat.of_int 5))
    else None in
  scorer "a calm lake" = Some PyFloat.lit_0_1 /\
  scorer "" = None /\
  analyze_sentiment scorer "a calm lake" = "neutral" /\
  analyze_sentiment scorer "a bright happy day" = "positive" /\
  analyze_sentiment scorer "" = "neutral".
Proof.
  intros scorer.
  assert (H1 : scorer "a calm lake" = Some PyFloat.lit_0_1) by reflexivity.
  assert (H2 : scorer "" = None) by reflexivity.
  assert (H3 : scorer "a bright happy day" =
               Some (PyFloat.div (PyFloat.of_int 4) (PyFloat.of_int 5)))
    by reflexivity.
  split; [exact H1|]. split; [exact H2|]. split; [|split].
  - destruct (C8_sentiment_thresholds scorer "a calm lake") as [H _].
    destruct (H _ H1) as (_ & _ & _ & Heq & _). apply Heq. reflexivity.
  - destruct (C8_sentiment_thresholds scorer "a bright happy day") as [H _].
    destruct (H _ H3) as (Hpos & _). apply Hpos. vm_compute. reflexivity.
  - destruct (C8_sentiment_thresholds scorer "") as [_ H]. exact (H H2).
Defined.

(** ** Substrings and the search loop *)

Lemma prefix_occurs (needle hay : string) :
  prefix needle hay = true <-> exists post, hay = needle ++ post.
Proof.
  revert hay. induction needle as [|c needle IH]; intros hay.
  - destruct hay; simpl; split; eauto.
  - destruct hay as [|c' hay]; simpl.
    + split; [discriminate | intros [post E]; discriminate].
    + destruct (ascii_dec c c') as [<- | Hc].
      * rewrite IH. split; intros [post E]; exists post; congruence.
      * split; [discriminate | intros [post E]; congruence].
Qed.

Lemma contains_occurs (needle hay : string) :
  PyStr.contains needle hay = true <-> PyStr.occurs_in needle hay.
Proof.
  unfold PyStr.occurs_in.
  induction hay as [|c hay IH]; cbn [PyStr.contains].
  - rewrite orb_false_r, prefix_occurs. split.
    + intros [post E]. exists "", post. exact E.
    + intros (pre & post & E). destruct pre; [eauto | discriminate].
  - rewrite orb_true_iff, prefix_occurs, IH. split.
    + intros [[post E] | (pre & post & E)].
      * exists "", post. exact E.
      * exists (String c pre), post. simpl. congruence.
    + intros ([|c' pre] & post & E); simpl in E.
      * left. eauto.
      * right. exists pre, post. congruence.
Qed.

Lemma matches_with_record (lower : string -> string) (query : string)
    (d : dream) :
  matches_with lower (lower query) d = true <->
  record_matches_with lower query d.
Proof.
  unfold matches_with, record_matches_with.
  rewrite !orb_true_iff, !contains_occurs, existsb_exists.
  setoid_rewrite contains_occurs. tauto.
Qed.

Lemma matches_record_matches (query : string) (d : dream) :
  matches (PyStr.lower query) d = true <-> record_matches query d.
Proof. apply matches_with_record. Qed.

Lemma append_loop_filter {A : Type} (keep : A -> bool) (l acc : list A) :
  fold_left (fun results x => if keep x then (results ++ [x])%list else results)
    l acc = (acc ++ filter keep l)%list.
Proof.
  revert acc. induction l as [|x l IH]; intros acc; simpl.
  - now rewrite app_nil_r.
  - rewrite IH. destruct (keep x); [|reflexivity].
    now rewrite <- app_assoc.
Qed.

Lemma truthy_empty (s : string) : PyStr.truthy s = false <-> s = "".
Proof. destruct s; simpl; split; congruence. Qed.

Lemma search_with_nonempty (lower : string -> string) (query : string)
    (st : journal) :
  query <> "" ->
  search_dreams_with lower query st =
  (Ok (filter (matches_with lower (lower query)) (dreams st)), st).
Proof.
  intros Hq. unfold search_dreams_with.
  destruct query as [|c query]; [congruence|].
  cbn [negb PyStr.truthy]. cbv zeta. unfold bind, get_dreams, ret.
  rewrite (append_loop_filter (matches_with lower (lower (String c query)))).
  reflexivity.
Qed.

Lemma search_dreams_nonempty (query : string) (st : journal) :
  query <> "" ->
  search_dreams query st =
  (Ok (filter (matches (PyStr.lower query)) (dreams st)), st).
Proof. apply search_with_nonempty. Qed.

Lemma filter_keeps_order {A : Type} (keep : A -> bool) (a b : A) (l : list A) :
  PySort.before a b (filter keep l) -> PySort.before a b l.
Proof.
  intros (l1 & l2 & E & Hb).
  revert l1 E. induction l as [|x l IH]; intros l1 E; simpl in E.
  - destruct l1; discriminate.
  - rewrite before_cons. destruct (keep x).
    + destruct l1 as [|y l1]; simpl in E; injection E as -> E.
      * left. split; [reflexivity|].
        assert (H : In b (filter keep l)) by (rewrite E; assumption).
        apply filter_In in H. tauto.
      * right. eauto.
    + right. eauto.
Qed.

Lemma ascii_lower_app (a b : string) :
  PyStr.lower (a ++ b) = PyStr.lower a ++ PyStr.lower b.
Proof.
  induction a as [|c a IH]; simpl; [reflexivity|]. now rewrite IH.
Qed.

(** C4. Whatever function lowercases a text, for a query that is not
    empty the search returns, without raising and without changing the
    journal, the dreams of the collection that match, in the order of the
    collection; a dream matches exactly when the lowercased query occurs in
    its lowercased title, in its lowercased description or in one of its
    lowercased tags.  When FLY lowercases to fly and a description that
    contains flying lowercases as ASCII text does, the query FLY finds the
    dream. *)
Theorem C4_search_substring_in_order (lower : string -> string)
    (st : journal) (query : string) :
  query <> "" ->
  search_dreams_with lower query st =
    (Ok (filter (matches_with lower (lower query)) (dreams st)), st) /\
  (forall d, matches_with lower (lower query) d = true <->
             record_matches_with lower query d) /\
  (forall results, fst (search_dreams_with lower query st) = Ok results ->
     (forall d, In d results <->
                In d (dreams st) /\ record_matches_with lower query d) /\
     (forall a b, PySort.before a b results ->
                  PySort.before a b (dreams st))) /\
  (forall d text,
     In d (dreams st) -> description d = Some text ->
     PyStr.occurs_in "flying" text ->
     lower "FLY" = "fly" -> lower text = PyStr.lower text ->
     exists found,
       fst (search_dreams_with lower "FLY" st) = Ok found /\ In d found).
Proof.
  intros Hq.
  split; [now apply search_with_nonempty|].
  split; [intros d; apply matches_with_record|].
  split.
  - rewrite search_with_nonempty by assumption. simpl.
    intros results [= <-]. split.
    + intros d. rewrite filter_In, matches_with_record. reflexivity.
    + intros a b. apply filter_keeps_order.
  - intros d text Hin Hd (pre & post & ->) Hfly Htext.
    rewrite search_with_nonempty by discriminate. cbn [fst].
    eexists. split; [reflexivity|]. apply filter_In. split; [exact Hin|].
    apply (proj2 (matches_with_record lower "FLY" d)).
    right. left. rewrite Hd, Hfly. cbn [dget]. rewrite Htext.
    exists (PyStr.lower pre), (PyStr.lower ("ing" ++ post)).
    rewrite ascii_lower_app. reflexivity.
Qed.

Lemma C4_search_substring_in_order_witness :
  let st := Stats.journal_of Stats.three_dreams in
  "FLY" <> "" /\
  exists d, search_dreams_with PyStr.lower "FLY" st = (Ok [d], st) /\
            description d = Some "I was flying high".
Proof.
  intros st.
  assert (Hq : "FLY" <> "") by discriminate.
  destruct (C4_search_substring_in_order PyStr.lower st "FLY" Hq)
    as (Hrun & _).
  split; [exact Hq|].
  eexists. split; [rewrite Hrun; vm_compute; reflexivity | reflexivity].
Defined.




(** ** Saving a dream *)

Lemma not_truthy_empty (s : string) :
  negb (PyStr.truthy s) = true <-> s = "".
Proof. destruct s; simpl; split; congruence. Qed.

(** A form with a title and a description appends one dream, writes the
    file when the write succeeds, and reports success. *)
Lemma save_dream_valid (polarity : string -> option PyFloat.float)
    (now title description emotion : string) (lucid : bool) (tags : string)
    (sleep_quality : Z) (st : journal) :
  PyStr.strip title <> "" -> PyStr.strip description <> "" ->
  exists d,
    id d = Some (len (dreams st) + 1)%Z /\
    Journal.title d = Some (PyStr.strip title) /\
    Journal.description d = Some (PyStr.strip description) /\
    save_dream polarity now None title description emotion lucid tags
      sleep_quality st =
    (Ok true,
     {| dreams := (dreams st ++ [d])%list;
        dreams_json := Some (dreams st ++ [d])%list;
        page := (page st ++ [st_success "Dream saved successfully!"])%list |}).
Proof.
  intros Ht Hd. unfold save_dream, save_dream_with.
  destruct (negb (PyStr.truthy (PyStr.strip title))) eqn:Et;
    [apply not_truthy_empty in Et; contradiction|].
  destruct (negb (PyStr.truthy (PyStr.strip description))) eqn:Ed;
    [apply not_truthy_empty in Ed; contradiction|].
  eexists. split; [|split; [|split]]; [| | |reflexivity]; reflexivity.
Qed.

(** C6. Whatever function strips a text, a form whose title is empty
    once stripped is refused with the title message, and a form with a title
    whose description is empty once stripped is refused with the description
    message.  In both cases [save_dream] returns [False], the list of dreams
    and the file are what they were, and the only effect is the error message
    on the page. *)
Theorem C6_save_rejects_empty_fields
    (polarity : string -> option PyFloat.float) (now : string)
    (write_error : option string) (strip : string -> string)
    (title description emotion : string) (lucid : bool) (tags : string)
    (sleep_quality : Z) (st : journal) :
  strip title = "" \/ strip description = "" ->
  exists msg,
    save_dream_with polarity now write_error strip title description emotion
      lucid tags sleep_quality st =
    (Ok false,
     {| dreams := dreams st; dreams_json := dreams_json st;
        page := (page st ++ [st_error msg])%list |}) /\
    (strip title = "" -> msg = "Please enter a dream title") /\
    (strip title <> "" -> msg = "Please enter a dream description") /\
    "Please enter a dream title" <> "Please enter a dream description".
Proof.
  intros Hbad. unfold save_dream_with.
  destruct (negb (PyStr.truthy (strip title))) eqn:Et.
  - apply not_truthy_empty in Et.
    exists "Please enter a dream title".
    split; [reflexivity|]. split; [reflexivity|].
    split; [congruence | discriminate].
  - assert (Hd : strip description = "").
    { destruct Hbad as [Ht | Hd]; [|exact Hd].
      apply not_truthy_empty in Ht. congruence. }
    assert (Ht : strip title <> "").
    { intros Ht. apply not_truthy_empty in Ht. congruence. }
    apply not_truthy_empty in Hd. rewrite Hd.
    exists "Please enter a dream description".
    split; [reflexivity|]. split; [contradiction|].
    split; [reflexivity | discriminate].
Qed.

Lemma C6_save_rejects_empty_fields_witness :
  let st := Stats.journal_of Stats.three_dreams in
  let scorer := fun _ : string => @None PyFloat.float in
  (PyStr.strip "   " = "" \/ PyStr.strip "a long corridor" = "") /\
  (PyStr.strip "Corridor" = "" \/ PyStr.strip "" = "") /\
  save_dream_with scorer "2024-03-06 07:00:00" None PyStr.strip "   "
    "a long corridor" "Curious" false "doors, light" 6 st =
  (Ok false,
   {| dreams := dreams st; dreams_json := dreams_json st;
      page := [st_error "Please enter a dream title"] |}) /\
  save_dream_with scorer "2024-03-06 07:00:00" None PyStr.strip "Corridor" ""
    "Curious" false "doors, light" 6 st =
  (Ok false,
   {| dreams := dreams st; dreams_json := dreams_json st;
      page := [st_error "Please enter a dream description"] |}).
Proof.
  intros st scorer.
  assert (H1 : PyStr.strip "   " = "" \/ PyStr.strip "a long corridor" = "")
    by (left; reflexivity).
  assert (H2 : PyStr.strip "Corridor" = "" \/ PyStr.strip "" = "")
    by (right; reflexivity).
  split; [exact H1|]. split; [exact H2|]. split.
  - destruct (C6_save_rejects_empty_fields scorer "2024-03-06 07:00:00" None
                PyStr.strip "   " "a long corridor" "Curious" false
                "doors, light" 6 st H1)
      as (msg & Hrun & Ht & _).
    rewrite Hrun, (Ht eq_refl). reflexivity.
  - destruct (C6_save_rejects_empty_fields scorer "2024-03-06 07:00:00" None
                PyStr.strip "Corridor" "" "Curious" false "doors, light" 6 st
                H2)
      as (msg & Hrun & _ & Hd & _).
    rewrite Hrun, Hd by discriminate. reflexivity.
Defined.

(** ** Read-only operations *)

(** C10. [get_analysis], [generate_insights] and [search_dreams] leave the
    journal exactly as they found it: the same dreams in the same order, the
    same file, the same page.  The five most recent dreams are taken from a
    sorted copy, which can differ from the stored order. *)
Theorem C10_read_only_operations (st : journal) (query : string) :
  snd (get_analysis st) = st /\
  snd (generate_insights st) = st /\
  snd (search_dreams query st) = st /\
  (let kept := Stats.journal_of Stats.three_dreams in
   recent_dreams (dreams kept) <> firstn 5 (dreams kept) /\
   dreams (snd (get_analysis kept)) = Stats.three_dreams).
Proof.
  split; [|split; [|split]].
  - destruct (dreams st) as [|d ds] eqn:E.
    + now rewrite get_analysis_empty.
    + rewrite get_analysis_ok by (rewrite E; discriminate). reflexivity.
  - destruct (generate_insights_total st) as [text H]. now rewrite H.
  - destruct query as [|c query]; [reflexivity|].
    now rewrite search_dreams_nonempty.
  - split; [vm_compute; discriminate|].
    rewrite get_analysis_ok by discriminate. reflexivity.
Qed.

(** ** The average sleep quality *)

Lemma quality_sum_total (ds : list dream) :
  quality_sum ds =
  fold_right Z.add 0%Z (map (fun d => dget (sleep_quality d) 0%Z) ds).
Proof.
  unfold quality_sum.
  assert (H : forall acc,
             fold_left (fun a d => (a + dget (sleep_quality d) 0)%Z) ds acc =
             (acc + fold_right Z.add 0
                      (map (fun d => dget (sleep_quality d) 0) ds))%Z).
  { induction ds as [|d ds IH]; intros acc; simpl; [lia|].
    rewrite IH. lia. }
  rewrite H. lia.
Qed.

(** C9. For a journal that is not empty, whose sum of sleep qualities
    and number of dreams are below 2^53, the average sleep quality is the
    binary64 quotient of the sum of the sleep qualities of all the dreams by
    the number of dreams, no exception is raised, and line 8 of the report
    shows it with one decimal.  For the qualities 5, 8 and 3 the quotient
    is the binary64 number nearest to 16/3, about 5.33, and the report shows
    5.3. *)
Theorem C9_average_sleep_quality (st : journal) :
  dreams st <> [] -> Inv.exact_sums (dreams st) ->
  let ds := dreams st in
  let qualities := map (fun d => dget (sleep_quality d) 0%Z) ds in
  let mean := PyFloat.div (PyFloat.of_int (fold_right Z.add 0%Z qualities))
                (PyFloat.of_int (Z.of_nat (List.length qualities))) in
  truediv (quality_sum ds) (len ds) st = (Ok mean, st) /\
  Stats.avg_quality ds = mean /\
  (Z.abs (fold_right Z.add 0 qualities) < 2 ^ 53)%Z /\
  (exists above below,
     List.length above = 7 /\
     get_analysis st =
     (Ok (PyStr.join PyStr.nl
            (above ++
             ["• Average Sleep Quality: " ++ PyFloat.format_1f mean ++ "/10"] ++
             below)), st)) /\
  (qualities = [5; 8; 3]%Z ->
   mean = S754_finite false 6004799503160661 (-50) /\
   (Z.abs (3 * 6004799503160661 - 16 * 2 ^ 50) * 2 < 3)%Z /\
   PyFloat.format_1f mean = "5.3").
Proof.
  intros Hds Hsums ds qualities mean.
  assert (Hmean : Stats.avg_quality ds = mean).
  { unfold Stats.avg_quality, Stats.ratio, mean, qualities, len.
    now rewrite quality_sum_total, length_map. }
  split; [rewrite <- Hmean; exact (truediv_ok _ _ _ (len_nonzero _ Hds))|].
  split; [exact Hmean|].
  split.
  { destruct Hsums as [Hsum _]. unfold Inv.exact_int in Hsum.
    rewrite quality_sum_total in Hsum. exact Hsum. }
  split.
  - exists (firstn 7 (Stats.report_lines ds)),
      (skipn 8 (Stats.report_lines ds)).
    split; [reflexivity|].
    rewrite get_analysis_ok by assumption. fold ds. rewrite <- Hmean.
    reflexivity.
  - intros Hq. unfold mean. rewrite Hq. vm_compute. auto.
Qed.

Lemma C9_average_sleep_quality_witness :
  let st := Stats.journal_of Stats.three_dreams in
  dreams st <> [] /\ Inv.exact_sums (dreams st) /\
  map (fun d => dget (sleep_quality d) 0%Z) (dreams st) = [5; 8; 3]%Z /\
  PyFloat.format_1f (Stats.avg_quality (dreams st)) = "5.3" /\
  nth 7 (Stats.report_lines (dreams st)) "" =
    "• Average Sleep Quality: 5.3/10".
Proof.
  intros st.
  assert (Hne : dreams st <> []) by discriminate.
  assert (Hsums : Inv.exact_sums (dreams st))
    by (split; vm_compute; reflexivity).
  assert (Hq : map (fun d => dget (sleep_quality d) 0%Z) (dreams st) =
               [5; 8; 3]%Z) by reflexivity.
  destruct (C9_average_sleep_quality st Hne Hsums)
    as (_ & Hmean & _ & _ & Hshow).
  destruct (Hshow Hq) as (_ & _ & Hfmt).
  split; [exact Hne|]. split; [exact Hsums|]. split; [exact Hq|]. split.
  - rewrite Hmean. exact Hfmt.
  - vm_compute. reflexivity.
Defined.

(** ** Tags *)

Lemma tag_counts_entry (ds : list dream) (t : string) (n : nat) :
  In (t, n) (tag_counts ds) <->
  n = count_occ string_dec (all_tags ds) t /\ 0 < n.
Proof.
  unfold tag_counts. split.
  - intros Hin.
    assert (Hk : In t (Counter.keys (Counter.of_list (all_tags ds))))
      by (change t with (fst (t, n)); now apply in_map).
    apply in_counter_get in Hin; [|apply keys_of_list_nodup].
    rewrite get_of_list in Hin. split; [congruence|].
    subst n. apply count_occ_In, keys_of_list_in, Hk.
  - intros [-> Hpos].
    rewrite <- get_of_list. apply in_keys_entry, keys_of_list_in.
    now apply (count_occ_In string_dec).
Qed.

Lemma before_split_firstn {A : Type} (a b : A) (n : nat) (l : list A) :
  In a (firstn n l) -> In b (skipn n l) -> PySort.before a b l.
Proof.
  intros Ha Hb. apply in_split in Ha. destruct Ha as (l1 & l2 & E).
  exists l1, (l2 ++ skipn n l)%list. split.
  - rewrite <- (firstn_skipn n l) at 1. rewrite E, <- app_assoc. reflexivity.
  - apply in_or_app. auto.
Qed.

(** C3. Tags are counted over the tag lists of all the dreams laid end to
    end, every occurrence counting: the count of a tag is its number of
    occurrences, and a dream adds to it the number of times its own list
    holds the tag (twice for a list holding flying twice).  The ranking
    holds each counted tag once, counts descending, tags with equal counts
    in the order in which they were first seen; [common_tags] is its first
    five entries, at most five, none of them counted less than an entry
    left out. *)
Theorem C3_tag_counts_and_top5 (ds : list dream) :
  let seen := flat_map (fun d => dget (tags d) []) ds in
  let ranking := PySort.sorted_reverse Counter.count_ltb (tag_counts ds) in
  all_tags ds = seen /\
  (forall t, Counter.get (tag_counts ds) t = count_occ string_dec seen t) /\
  (forall d t,
     Counter.get (tag_counts (ds ++ [d])) t =
     Counter.get (tag_counts ds) t +
     count_occ string_dec (dget (tags d) []) t) /\
  Counter.get
    (tag_counts
       [Stats.entry 1 "2024-02-01 06:30:00" "Sky" "over the roofs" "Happy"
          true ["flying"; "flying"] 8 "positive"]) "flying" = 2 /\
  (forall t n,
     In (t, n) ranking <-> n = count_occ string_dec seen t /\ 0 < n) /\
  NoDup (map fst ranking) /\
  (forall a b, PySort.before a b ranking -> snd b <= snd a) /\
  (forall a b, PySort.before a b ranking -> snd a = snd b ->
     PySort.first_seen_before (fst a) (fst b) seen) /\
  common_tags ds = firstn 5 ranking /\
  List.length (common_tags ds) <= 5 /\
  (forall a b, In a (common_tags ds) -> In b (skipn 5 ranking) ->
     snd b <= snd a).
Proof.
  intros seen ranking.
  assert (Hseen : all_tags ds = seen) by apply all_tags_flat_map.
  assert (Hperm : Permutation ranking (tag_counts ds))
    by apply sorted_reverse_perm.
  assert (Hdesc : forall a b, PySort.before a b ranking -> snd b <= snd a).
  { intros a b Hab.
    apply (sorted_reverse_descending Counter.count_ltb
             count_ltb_asym count_ltb_between) in Hab.
    unfold Counter.count_ltb in Hab. apply Nat.ltb_ge in Hab. exact Hab. }
  split; [exact Hseen|].
  split; [intros t; unfold tag_counts; now rewrite get_of_list, Hseen|].
  split.
  { intros d t. unfold tag_counts. rewrite !get_of_list, !all_tags_flat_map.
    rewrite flat_map_app, count_occ_app. simpl. now rewrite app_nil_r. }
  split; [reflexivity|].
  split.
  { intros t n. rewrite <- Hseen, <- tag_counts_entry.
    split; apply Permutation_in; [|symmetry]; exact Hperm. }
  split.
  { apply (Permutation_NoDup (l := map fst (tag_counts ds))).
    - apply Permutation_map. symmetry. exact Hperm.
    - apply keys_of_list_nodup. }
  split; [exact Hdesc|].
  split.
  { intros a b Hab Heq. rewrite <- Hseen.
    apply keys_first_seen. apply (before_map fst).
    apply (sorted_reverse_stable Counter.count_ltb); [exact Hab|].
    unfold Counter.count_ltb. apply Nat.ltb_ge. lia. }
  split; [reflexivity|].
  split; [apply firstn_le_length|].
  intros a b Ha Hb. apply Hdesc. eapply before_split_firstn; eassumption.
Qed.

Lemma C3_tag_counts_and_top5_witness :
  let ds := Stats.three_dreams in
  common_tags ds = [("flying", 2); ("sky", 2); ("cave", 1)] /\
  PySort.before ("flying", 2) ("sky", 2)
    (PySort.sorted_reverse Counter.count_ltb (tag_counts ds)) /\
  PySort.first_seen_before "flying" "sky"
    ["flying"; "flying"; "sky"; "cave"; "sky"].
Proof.
  intros ds.
  destruct (C3_tag_counts_and_top5 ds)
    as (_ & _ & _ & _ & _ & _ & _ & Hties & Htop & _).
  assert (Hab : PySort.before ("flying", 2) ("sky", 2)
                  (PySort.sorted_reverse Counter.count_ltb (tag_counts ds))).
  { exists [], [("sky", 2); ("cave", 1)]. split; [reflexivity|].
    simpl. auto. }
  split; [rewrite Htop; reflexivity|]. split; [exact Hab|].
  exact (Hties _ _ Hab eq_refl).
Defined.

(** ** Stripping and splitting *)

Lemma lstrip_head (s : string) (c : ascii) (r : string) :
  PyStr.lstrip s = String c r -> PyStr.is_space c = false.
Proof.
  induction s as [|c' s IH]; simpl; [discriminate|].
  destruct (PyStr.is_space c') eqn:E; [exact IH|].
  intros [= <- <-]. exact E.
Qed.

Lemma lstrip_fixed (c : ascii) (r : string) :
  PyStr.is_space c = false -> PyStr.lstrip (String c r) = String c r.
Proof. intros E. simpl. now rewrite E. Qed.

Lemma rstrip_cons (c : ascii) (r : string) :
  PyStr.rstrip (String c r) = "" \/
  exists r', PyStr.rstrip (String c r) = String c r'.
Proof.
  simpl. destruct (PyStr.rstrip r); [destruct (PyStr.is_space c)|]; eauto.
Qed.

Lemma rstrip_cons_keep (c : ascii) (r : string) :
  PyStr.is_space c = false ->
  exists r', PyStr.rstrip (String c r) = String c r'.
Proof.
  intros E. simpl. rewrite E. destruct (PyStr.rstrip r); eauto.
Qed.

Lemma rstrip_idempotent (s : string) :
  PyStr.rstrip (PyStr.rstrip s) = PyStr.rstrip s.
Proof.
  induction s as [|c s IH]; [reflexivity|]. simpl.
  destruct (PyStr.rstrip s) as [|c' r'] eqn:E.
  - destruct (PyStr.is_space c) eqn:Ec; [reflexivity|].
    simpl. now rewrite Ec.
  - simpl in *. rewrite IH. reflexivity.
Qed.

Lemma strip_idempotent (s : string) :
  PyStr.strip (PyStr.strip s) = PyStr.strip s.
Proof.
  unfold PyStr.strip.
  destruct (PyStr.lstrip s) as [|c r] eqn:E; [reflexivity|].
  pose proof (lstrip_head _ _ _ E) as Hc.
  destruct (rstrip_cons_keep c r Hc) as [r' Hr]. rewrite Hr.
  rewrite (lstrip_fixed c r' Hc), <- Hr. apply rstrip_idempotent.
Qed.

Lemma lstrip_blank (s : string) :
  PyStr.lstrip s = "" <-> Inv.blank s = true.
Proof.
  induction s as [|c s IH]; simpl; [tauto|].
  destruct (PyStr.is_space c); simpl; [exact IH|].
  split; discriminate.
Qed.

Lemma rstrip_blank (s : string) :
  PyStr.rstrip s = "" <-> Inv.blank s = true.
Proof.
  induction s as [|c s IH]; simpl; [tauto|].
  destruct (PyStr.rstrip s) as [|c' r'].
  - destruct (PyStr.is_space c); simpl; [tauto|].
    split; discriminate.
  - split; [discriminate|].
    rewrite andb_true_iff. intros [_ H]. apply IH in H. discriminate.
Qed.

(** Stripping leaves nothing exactly of the texts made of whitespace. *)
Lemma strip_empty_blank (s : string) :
  PyStr.strip s = "" <-> Inv.blank s = true.
Proof.
  unfold PyStr.strip. rewrite rstrip_blank.
  induction s as [|c s IH]; simpl; [tauto|].
  destruct (PyStr.is_space c) eqn:E; simpl; [exact IH|].
  rewrite E. simpl. tauto.
Qed.

Lemma has_char_lstrip (c : ascii) (s : string) :
  Inv.has_char c (PyStr.lstrip s) -> Inv.has_char c s.
Proof.
  induction s as [|c' s IH]; simpl; [tauto|].
  destruct (PyStr.is_space c'); simpl; tauto.
Qed.

Lemma has_char_rstrip (c : ascii) (s : string) :
  Inv.has_char c (PyStr.rstrip s) -> Inv.has_char c s.
Proof.
  induction s as [|c' s IH]; simpl; [tauto|].
  destruct (PyStr.rstrip s) as [|c'' r'].
  - destruct (PyStr.is_space c'); simpl; tauto.
  - simpl in *. tauto.
Qed.

Lemma has_char_strip (c : ascii) (s : string) :
  Inv.has_char c (PyStr.strip s) -> Inv.has_char c s.
Proof.
  intros H. now apply has_char_lstrip, has_char_rstrip.
Qed.

Lemma split_comma_nonempty (s : string) : PyStr.split_comma s <> [].
Proof.
  induction s as [|c s IH]; simpl; [discriminate|].
  destruct (Ascii.eqb c ","); [discriminate|].
  destruct (PyStr.split_comma s); [congruence | discriminate].
Qed.

Lemma split_comma_no_comma (s fragment : string) :
  In fragment (PyStr.split_comma s) -> ~ Inv.has_char ","%char fragment.
Proof.
  revert fragment. induction s as [|c s IH]; simpl; intros fragment.
  - intros [<- | []]. simpl. tauto.
  - destruct (Ascii.eqb_spec c ","%char) as [-> | Hc].
    + intros [<- | H]; [simpl; tauto | auto].
    + destruct (PyStr.split_comma s) as [|h t] eqn:E;
        [destruct (split_comma_nonempty s E)|].
      intros [<- | H]; [|apply IH; simpl; auto].
      simpl. intros [Hh | Hh]; [congruence|].
      apply (IH h); simpl; auto.
Qed.

Lemma join_cons_char (sep : string) (c : ascii) (h : string) (t : list string) :
  PyStr.join sep (String c h :: t) = String c (PyStr.join sep (h :: t)).
Proof. unfold PyStr.join. destruct t; reflexivity. Qed.

(** Joining the fragments of [s.split(',')] with commas gives [s] back. *)
Lemma split_join_round_trip (s : string) :
  PyStr.join "," (PyStr.split_comma s) = s.
Proof.
  induction s as [|c s IH]; [reflexivity|]. simpl.
  pose proof (split_comma_nonempty s) as Hne.
  destruct (Ascii.eqb_spec c ","%char) as [-> | Hc].
  - destruct (PyStr.split_comma s) as [|h t]; [congruence|].
    unfold PyStr.join in *. simpl in *. now rewrite IH.
  - destruct (PyStr.split_comma s) as [|h t]; [congruence|].
    rewrite join_cons_char. now rewrite IH.
Qed.

Lemma parse_tags_with_not_empty (strip : string -> string)
    (tags tag : string) :
  In tag (parse_tags_with strip tags) -> tag <> "".
Proof.
  unfold parse_tags_with. intros Hin. apply in_map_iff in Hin.
  destruct Hin as (fragment & <- & Hin). apply filter_In in Hin.
  destruct Hin as [_ Hkeep]. intros E. rewrite E in Hkeep. discriminate.
Qed.

Lemma parse_tags_with_none (strip : string -> string) (tags : string) :
  (forall fragment, In fragment (PyStr.split_comma tags) ->
     strip fragment = "") ->
  parse_tags_with strip tags = [].
Proof.
  unfold parse_tags_with. intros Hall.
  induction (PyStr.split_comma tags) as [|f l IH]; [reflexivity|].
  simpl. rewrite (Hall f) by (simpl; auto).
  simpl. apply IH. intros g Hg. apply Hall. simpl. auto.
Qed.


(** X1. Let [strip] be a function that returns a part of its argument and
    that changes nothing when applied a second time, as [str.strip] is.
    Every tag that [save_dream] stores is then the stripped form of a
    fragment between two commas of the input: it is not empty, is unchanged
    by another strip and holds no comma.  An input whose fragments all strip
    to the empty text stores no tag. *)
Theorem X1_parse_tags_clean (strip : string -> string) (tags : string) :
  (forall s, strip (strip s) = strip s) ->
  (forall c s, Inv.has_char c (strip s) -> Inv.has_char c s) ->
  (forall tag, In tag (parse_tags_with strip tags) ->
     tag <> "" /\ strip tag = tag /\
     ~ Inv.has_char ","%char tag /\
     exists fragment, In fragment (PyStr.split_comma tags) /\
                      strip fragment <> "" /\ tag = strip fragment) /\
  (forall fragment, In fragment (PyStr.split_comma tags) ->
     strip fragment <> "" -> In (strip fragment) (parse_tags_with strip tags)) /\
  ((forall fragment, In fragment (PyStr.split_comma tags) ->
      strip fragment = "") ->
   parse_tags_with strip tags = []).
Proof.
  intros Hidem Hpart. split; [|split].
  - unfold parse_tags_with. intros tag Hin. apply in_map_iff in Hin.
    destruct Hin as (fragment & <- & Hin). apply filter_In in Hin.
    destruct Hin as [Hin Hkeep].
    assert (Hne : strip fragment <> "")
      by (intros E; rewrite E in Hkeep; discriminate).
    split; [exact Hne|]. split; [apply Hidem|]. split; [|eauto].
    intros H. apply Hpart in H.
    exact (split_comma_no_comma _ _ Hin H).
  - unfold parse_tags_with. intros fragment Hin Hne.
    apply in_map, filter_In. split; [exact Hin|].
    destruct (strip fragment); [congruence | reflexivity].
  - apply parse_tags_with_none.
Qed.

Lemma X1_parse_tags_clean_witness :
  (forall s, PyStr.strip (PyStr.strip s) = PyStr.strip s) /\
  (forall c s, Inv.has_char c (PyStr.strip s) -> Inv.has_char c s) /\
  parse_tags_with PyStr.strip " flying , ,sky,,  night sky " =
    ["flying"; "sky"; "night sky"] /\
  parse_tags_with PyStr.strip " , ," = [].
Proof.
  destruct (X1_parse_tags_clean PyStr.strip " , ," strip_idempotent
              has_char_strip) as (_ & _ & Hnone).
  split; [exact strip_idempotent|]. split; [exact has_char_strip|].
  split; [reflexivity|].
  apply Hnone. simpl. intros fragment [<- | [<- | [<- | []]]]; reflexivity.
Defined.

(** ** What a save does *)

Lemma truthy_strip_blank (s : string) :
  negb (PyStr.truthy (PyStr.strip s)) = Inv.blank s.
Proof.
  destruct (Inv.blank s) eqn:E.
  - apply strip_empty_blank in E. now rewrite E.
  - destruct (PyStr.strip s) eqn:Es; [|reflexivity].
    apply strip_empty_blank in Es. congruence.
Qed.

(** The dream that [save_dream] builds. *)
Lemma save_dream_run (polarity : string -> option PyFloat.float)
    (now : string) (write_error : option string)
    (title description emotion : string) (lucid : bool) (tags : string)
    (sleep_quality : Z) (st : journal) :
  let d := {| id := Some (len (dreams st) + 1)%Z;
              date := Some now;
              Journal.title := Some (PyStr.strip title);
              Journal.description := Some (PyStr.strip description);
              Journal.emotion := Some emotion;
              Journal.lucid := Some lucid;
              Journal.tags := Some (parse_tags tags);
              Journal.sleep_quality := Some sleep_quality;
              sentiment :=
                Some (analyze_sentiment polarity (PyStr.strip description)) |} in
  save_dream polarity now write_error title description emotion lucid tags
    sleep_quality st =
  if Inv.blank title then
    (Ok false,
     {| dreams := dreams st; dreams_json := dreams_json st;
        page := (page st ++ [st_error "Please enter a dream title"])%list |})
  else if Inv.blank description then
    (Ok false,
     {| dreams := dreams st; dreams_json := dreams_json st;
        page := (page st ++ [st_error "Please enter a dream description"])%list |})
  else
    (Ok true,
     {| dreams := (dreams st ++ [d])%list;
        dreams_json :=
          match write_error with
          | None => Some (dreams st ++ [d])%list
          | Some _ => dreams_json st
          end;
        page :=
          match write_error with
          | None => (page st ++ [st_success "Dream saved successfully!"])%list
          | Some e =>
              ((page st ++ [st_error ("Failed to save dreams: " ++ e)]) ++
               [st_success "Dream saved successfully!"])%list
          end |}).
Proof.
  intros d. unfold save_dream, save_dream_with.
  rewrite !truthy_strip_blank.
  destruct (Inv.blank title); [reflexivity|].
  destruct (Inv.blank description); [reflexivity|].
  destruct write_error; reflexivity.
Qed.

(** What [save_dream] does, whatever function strips a text. *)
Lemma save_with_run (polarity : string -> option PyFloat.float)
    (now : string) (write_error : option string) (strip : string -> string)
    (title description emotion : string) (lucid : bool) (tags : string)
    (sleep_quality : Z) (st : journal) :
  let d := {| id := Some (len (dreams st) + 1)%Z;
              date := Some now;
              Journal.title := Some (strip title);
              Journal.description := Some (strip description);
              Journal.emotion := Some emotion;
              Journal.lucid := Some lucid;
              Journal.tags := Some (parse_tags_with strip tags);
              Journal.sleep_quality := Some sleep_quality;
              sentiment :=
                Some (analyze_sentiment polarity (strip description)) |} in
  save_dream_with polarity now write_error strip title description emotion
    lucid tags sleep_quality st =
  if PyStr.truthy (strip title) then
    if PyStr.truthy (strip description) then
      (Ok true,
       {| dreams := (dreams st ++ [d])%list;
          dreams_json :=
            match write_error with
            | None => Some (dreams st ++ [d])%list
            | Some _ => dreams_json st
            end;
          page :=
            match write_error with
            | None => (page st ++ [st_success "Dream saved successfully!"])%list
            | Some e =>
                ((page st ++ [st_error ("Failed to save dreams: " ++ e)]) ++
                 [st_success "Dream saved successfully!"])%list
            end |})
    else
      (Ok false,
       {| dreams := dreams st; dreams_json := dreams_json st;
          page := (page st ++
                   [st_error "Please enter a dream description"])%list |})
  else
    (Ok false,
     {| dreams := dreams st; dreams_json := dreams_json st;
        page := (page st ++ [st_error "Please enter a dream title"])%list |}).
Proof.
  intros d. unfold save_dream_with.
  destruct (PyStr.truthy (strip title)); [|reflexivity].
  destruct (PyStr.truthy (strip description)); [|reflexivity].
  destruct write_error; reflexivity.
Qed.

Lemma truthy_not_empty (s : string) : PyStr.truthy s = true <-> s <> "".
Proof. destruct s; simpl; split; congruence. Qed.

(** X2. Whatever function strips a text, [save_dream] never raises.  It
    returns [True] exactly when the title and the description are both not
    empty once stripped; then it appends one dream to the list, and
    otherwise it leaves the list and the file as they are.  It never removes
    or reorders a dream. *)
Theorem X2_save_accepts_iff_not_blank
    (polarity : string -> option PyFloat.float) (now : string)
    (write_error : option string) (strip : string -> string)
    (title description emotion : string) (lucid : bool) (tags : string)
    (sleep_quality : Z) (st : journal) :
  exists saved st' added,
    save_dream_with polarity now write_error strip title description emotion
      lucid tags sleep_quality st = (Ok saved, st') /\
    (saved = true <-> strip title <> "" /\ strip description <> "") /\
    dreams st' = (dreams st ++ added)%list /\
    (saved = true -> List.length added = 1) /\
    (saved = false -> added = [] /\ dreams_json st' = dreams_json st).
Proof.
  rewrite save_with_run.
  destruct (PyStr.truthy (strip title)) eqn:Et;
    [destruct (PyStr.truthy (strip description)) eqn:Ed|].
  - apply truthy_not_empty in Et, Ed.
    eexists _, _, [_]. split; [reflexivity|]. simpl.
    repeat split; try discriminate; assumption.
  - apply truthy_empty in Ed.
    eexists _, _, []. split; [reflexivity|]. simpl. rewrite app_nil_r.
    repeat split; try discriminate; intuition congruence.
  - apply truthy_empty in Et.
    eexists _, _, []. split; [reflexivity|]. simpl. rewrite app_nil_r.
    repeat split; try discriminate; intuition congruence.
Qed.



Lemma ids_sequential_nodup (ds : list dream) :
  Inv.ids_sequential ds -> NoDup (map id ds).
Proof.
  intros Hids. apply NoDup_nth_error. intros i j Hi E.
  rewrite length_map in Hi. rewrite !nth_error_map in E.
  destruct (nth_error ds i) as [di|] eqn:Ei;
    [|apply nth_error_None in Ei; lia].
  destruct (nth_error ds j) as [dj|] eqn:Ej; [|discriminate].
  simpl in E. rewrite (Hids _ _ Ei), (Hids _ _ Ej) in E.
  injection E. lia.
Qed.

(** X5. If the dream at every position [i] of the list has the id
    [i + 1], so has every dream after a [save_dream], whatever the form
    held and whether the write succeeded; the ids are then pairwise
    different. *)
Theorem X5_ids_stay_sequential
    (polarity : string -> option PyFloat.float) (now : string)
    (write_error : option string)
    (title description emotion : string) (lucid : bool) (tags : string)
    (sleep_quality : Z) (st : journal) :
  Inv.ids_sequential (dreams st) ->
  let st' := snd (save_dream polarity now write_error title description
                    emotion lucid tags sleep_quality st) in
  Inv.ids_sequential (dreams st') /\ NoDup (map id (dreams st')).
Proof.
  intros Hids st'.
  assert (H : Inv.ids_sequential (dreams st')).
  { unfold st'. rewrite save_dream_run.
    destruct (Inv.blank title); [exact Hids|].
    destruct (Inv.blank description); [exact Hids|]. simpl.
    intros i d Hi.
    destruct (Nat.lt_ge_cases i (List.length (dreams st))) as [Hlt | Hge].
    - rewrite nth_error_app1 in Hi by assumption. auto.
    - rewrite nth_error_app2 in Hi by assumption.
      destruct (i - List.length (dreams st)) as [|k] eqn:Ek.
      + injection Hi as <-. simpl. unfold len. f_equal. lia.
      + destruct k; discriminate. }
  split; [exact H | now apply ids_sequential_nodup].
Qed.

Lemma X5_ids_stay_sequential_witness :
  let st := Stats.journal_of Stats.three_dreams in
  let st' := snd (save_dream (fun _ => None) "2024-03-06 07:00:00" None
                    "Corridor" "a long corridor" "Curious" false "doors" 6
                    st) in
  Inv.ids_sequential (dreams st) /\
  map id (dreams st') = [Some 1; Some 2; Some 3; Some 4]%Z /\
  NoDup (map id (dreams st')).
Proof.
  intros st st'.
  assert (H : Inv.ids_sequential (dreams st)).
  { intros [|[|[|i]]] d; simpl; try (intros [= <-]; reflexivity).
    destruct i; discriminate. }
  destruct (X5_ids_stay_sequential (fun _ => None) "2024-03-06 07:00:00" None
              "Corridor" "a long corridor" "Curious" false "doors" 6 st H)
    as [_ Hnd].
  split; [exact H|]. split; [reflexivity | exact Hnd].
Defined.

(** ** Sentiment labels *)

Lemma analyze_sentiment_label (polarity : string -> option PyFloat.float)
    (text : string) :
  analyze_sentiment polarity text = "positive" \/
  analyze_sentiment polarity text = "negative" \/
  analyze_sentiment polarity text = "neutral".
Proof.
  unfold analyze_sentiment.
  destruct (polarity text) as [p|]; [|auto].
  destruct (PyFloat.ltb PyFloat.lit_0_1 p); [auto|].
  destruct (PyFloat.ltb p PyFloat.lit_m0_1); auto.
Qed.

Lemma three_labels_count (l : list string) :
  (forall x, In x l -> x = "positive" \/ x = "negative" \/ x = "neutral") ->
  count_occ string_dec l "positive" + count_occ string_dec l "negative" +
  count_occ string_dec l "neutral" = List.length l.
Proof.
  induction l as [|x l IH]; intros Hall; [reflexivity|].
  specialize (IH (fun y Hy => Hall y (or_intror Hy))).
  destruct (Hall x (or_introl eq_refl)) as [-> | [-> | ->]];
    cbn [count_occ List.length];
    repeat match goal with
           | |- context [string_dec ?a ?b] =>
               destruct (string_dec a b); try discriminate; try congruence
           end; lia.
Qed.

(** X6. The sentiment that [save_dream] stores is always positive,
    negative or neutral, so a journal whose dreams all carry one of the three
    labels keeps that property through every save; in such a journal the
    three sentiment counts of the report add up to the number of dreams. *)
Theorem X6_sentiment_labels_kept
    (polarity : string -> option PyFloat.float) (now : string)
    (write_error : option string)
    (title description emotion : string) (lucid : bool) (tags : string)
    (sleep_quality : Z) (st : journal) :
  Inv.labelled (dreams st) ->
  let st' := snd (save_dream polarity now write_error title description
                    emotion lucid tags sleep_quality st) in
  let counts := Counter.of_list (sentiments_of (dreams st')) in
  Inv.labelled (dreams st') /\
  Counter.get counts "positive" + Counter.get counts "negative" +
  Counter.get counts "neutral" = List.length (dreams st').
Proof.
  intros Hlab st' counts.
  assert (H : Inv.labelled (dreams st')).
  { unfold st'. rewrite save_dream_run.
    destruct (Inv.blank title); [exact Hlab|].
    destruct (Inv.blank description); [exact Hlab|]. simpl.
    intros d Hd. apply in_app_or in Hd. destruct Hd as [Hd | [<- | []]];
      [auto|]. simpl.
    destruct (analyze_sentiment_label polarity (PyStr.strip description))
      as [-> | [-> | ->]]; auto. }
  split; [exact H|].
  unfold counts. rewrite !get_of_list, three_labels_count.
  - unfold sentiments_of. apply length_map.
  - intros x Hx. unfold sentiments_of in Hx. apply in_map_iff in Hx.
    destruct Hx as (d & <- & Hd).
    destruct (H d Hd) as [-> | [-> | ->]]; simpl; auto.
Qed.

Lemma X6_sentiment_labels_kept_witness :
  let st := Stats.journal_of Stats.three_dreams in
  let st' := snd (save_dream (fun _ => Some PyFloat.lit_0_1)
                    "2024-03-06 07:00:00" None "Corridor" "a long corridor"
                    "Curious" false "doors" 6 st) in
  Inv.labelled (dreams st) /\ Inv.labelled (dreams st') /\
  sentiments_of (dreams st') = ["positive"; "neutral"; "negative"; "neutral"].
Proof.
  intros st st'.
  assert (H : Inv.labelled (dreams st)).
  { intros d [<- | [<- | [<- | []]]]; simpl; auto. }
  destruct (X6_sentiment_labels_kept (fun _ => Some PyFloat.lit_0_1)
              "2024-03-06 07:00:00" None "Corridor" "a long corridor"
              "Curious" false "doors" 6 st H) as [Hlab _].
  split; [exact H|]. split; [exact Hlab | reflexivity].
Defined.

(** ** The sentiment rule and the shape of the insights *)




Lemma lucid_rule_app (p : PyFloat.float) (l : list string) :
  lucid_rule p l = (l ++ lucid_rule p [])%list.
Proof.
  unfold lucid_rule.
  destruct (PyFloat.ltb _ p); [reflexivity|].
  destruct (PyFloat.ltb p _); [reflexivity | now rewrite app_nil_r].
Qed.





(** ** The most common emotion and the recent dreams *)

Lemma counter_entry (l : list string) (k : string) (n : nat) :
  In (k, n) (Counter.of_list l) <-> n = count_occ string_dec l k /\ 0 < n.
Proof.
  split.
  - intros Hin.
    assert (Hk : In k (Counter.keys (Counter.of_list l)))
      by (change k with (fst (k, n)); now apply in_map).
    apply in_counter_get in Hin; [|apply keys_of_list_nodup].
    rewrite get_of_list in Hin. split; [congruence|].
    subst n. apply count_occ_In, keys_of_list_in, Hk.
  - intros [-> Hpos].
    rewrite <- get_of_list. apply in_keys_entry, keys_of_list_in.
    now apply (count_occ_In string_dec).
Qed.

(** X9. In a journal that is not empty the most common emotion of the
    report is an emotion of some dream, shown with its number of dreams; no
    emotion has more dreams, and among the emotions with as many dreams it is
    the one first seen in the list. *)
Theorem X9_most_common_emotion_is_maximal (ds : list dream) :
  ds <> [] ->
  let emotions := emotions_of ds in
  let top := Stats.most_common_emotion ds in
  In (fst top) emotions /\
  snd top = count_occ string_dec emotions (fst top) /\
  (forall e, count_occ string_dec emotions e <= snd top) /\
  (forall e, e <> fst top ->
     count_occ string_dec emotions e = snd top ->
     PySort.first_seen_before (fst top) e emotions).
Proof.
  intros Hds emotions top.
  set (ranking := PySort.sorted_reverse Counter.count_ltb
                    (Counter.of_list emotions)).
  assert (Hne : Counter.of_list emotions <> []).
  { destruct ds as [|d ds]; [congruence|]. apply of_list_nonempty. }
  assert (Hrank : exists rest, ranking = top :: rest).
  { unfold top, Stats.most_common_emotion, Counter.most_common.
    fold emotions. fold ranking.
    pose proof (sorted_reverse_length Counter.count_ltb
                  (Counter.of_list emotions)) as Hlen.
    fold ranking in Hlen.
    destruct ranking as [|t rest]; [|simpl; eauto].
    destruct (Counter.of_list emotions); [congruence | discriminate]. }
  destruct Hrank as [rest Hrank].
  assert (Hin : forall a, In a ranking <-> In a (Counter.of_list emotions))
    by (intros a; apply sorted_reverse_in).
  assert (Htop : In top (Counter.of_list emotions))
    by (apply Hin; rewrite Hrank; simpl; auto).
  destruct top as [e0 n0] eqn:Etop. simpl.
  apply counter_entry in Htop. destruct Htop as [Hn0 Hpos].
  assert (Hothers : forall e, e <> e0 ->
            0 < count_occ string_dec emotions e ->
            PySort.before (e0, n0) (e, count_occ string_dec emotions e)
              ranking).
  { intros e He Hc.
    assert (Hentry : In (e, count_occ string_dec emotions e) ranking)
      by (apply Hin, counter_entry; auto).
    rewrite Hrank in Hentry. destruct Hentry as [[= E _] | Hentry];
      [congruence|].
    exists [], rest. rewrite Hrank. auto. }
  split; [apply (count_occ_In string_dec); lia|].
  split; [exact Hn0|]. split.
  - intros e. destruct (string_dec e e0) as [-> | He]; [lia|].
    destruct (Nat.eq_0_gt_0_cases (count_occ string_dec emotions e))
      as [-> | Hc]; [lia|].
    pose proof (Hothers e He Hc) as Hb.
    apply (sorted_reverse_descending Counter.count_ltb
             count_ltb_asym count_ltb_between) in Hb.
    unfold Counter.count_ltb in Hb. simpl in Hb.
    apply Nat.ltb_ge in Hb. exact Hb.
  - intros e He Hc.
    change e0 with (fst (e0, n0)).
    change e with (fst (e, count_occ string_dec emotions e)) at 1.
    apply keys_first_seen. apply (before_map fst).
    apply (sorted_reverse_stable Counter.count_ltb).
    + apply Hothers; [assumption | lia].
    + unfold Counter.count_ltb. simpl. apply Nat.ltb_ge. lia.
Qed.

Lemma X9_most_common_emotion_is_maximal_witness :
  let ds := Stats.five_dreams in
  ds <> [] /\ Stats.most_common_emotion ds = ("Confused", 1) /\
  (forall e, count_occ string_dec (emotions_of ds) e <= 1).
Proof.
  intros ds.
  assert (Hne : ds <> []) by discriminate.
  destruct (X9_most_common_emotion_is_maximal ds Hne) as (_ & _ & Hmax & _).
  split; [exact Hne|]. split; [reflexivity | exact Hmax].
Defined.

Lemma string_compare_between (x y z : string) :
  String.compare x z = Lt ->
  String.compare x y = Lt \/ String.compare y z = Lt.
Proof.
  revert y z. induction x as [|cx x IH]; intros [|cy y] [|cz z]; simpl;
    try discriminate; auto.
  unfold Ascii.compare.
  destruct (N.compare_spec (N_of_ascii cx) (N_of_ascii cz)) as [Hxz|Hxz|Hxz];
    destruct (N.compare_spec (N_of_ascii cx) (N_of_ascii cy)) as [Hxy|Hxy|Hxy];
    destruct (N.compare_spec (N_of_ascii cy) (N_of_ascii cz)) as [Hyz|Hyz|Hyz];
    try discriminate; auto; lia.
Qed.

Lemma string_ltb_irrefl (s : string) : String.ltb s s = false.
Proof.
  unfold String.ltb. pose proof (String.compare_antisym s s) as H.
  destruct (String.compare s s); simpl in H; congruence.
Qed.

Lemma date_ltb_asym (a b : dream) :
  date_ltb a b = true -> date_ltb b a = false.
Proof.
  unfold date_ltb, String.ltb. rewrite (String.compare_antisym (dget (date b) "")).
  destruct (String.compare (dget (date a) "") (dget (date b) ""));
    simpl; congruence.
Qed.

Lemma date_ltb_between (a b c : dream) :
  date_ltb a c = true -> date_ltb a b = true \/ date_ltb b c = true.
Proof.
  unfold date_ltb, String.ltb. intros H.
  destruct (String.compare (dget (date a) "") (dget (date c) "")) eqn:E;
    try discriminate.
  destruct (string_compare_between _ (dget (date b) "") _ E) as [-> | ->];
    auto.
Qed.

(** X10. The recent dreams of the report are dreams of the journal, five of
    them or all when there are fewer; no dream comes before one with a later
    date, dreams with the same date keep the order of the list, and no dream
    left out is dated after one that is shown.  A dream without a date sorts
    as the empty text, after every dated one. *)
Theorem X10_recent_dreams_order (ds : list dream) :
  let key := fun d => dget (date d) "" in
  let sorted := PySort.sorted_reverse date_ltb ds in
  let recent := recent_dreams ds in
  List.length recent = Nat.min 5 (List.length ds) /\
  Permutation (recent ++ skipn 5 sorted) ds /\
  (forall a b, PySort.before a b recent ->
     String.ltb (key a) (key b) = false) /\
  (forall a b, PySort.before a b recent -> key a = key b ->
     PySort.before a b ds) /\
  (forall a b, In a recent -> In b (skipn 5 sorted) ->
     String.ltb (key a) (key b) = false) /\
  (forall a b, PySort.before a b recent -> date a = None ->
     key b = "").
Proof.
  intros key sorted recent.
  assert (Hdesc : forall a b, PySort.before a b sorted ->
                    String.ltb (key a) (key b) = false).
  { intros a b Hab.
    exact (sorted_reverse_descending date_ltb date_ltb_asym date_ltb_between
             a b ds Hab). }
  split.
  { unfold recent, recent_dreams. rewrite length_firstn.
    now rewrite sorted_reverse_length. }
  split.
  { unfold recent, recent_dreams. fold sorted. rewrite firstn_skipn.
    apply sorted_reverse_perm. }
  split; [intros a b Hab; apply Hdesc; now apply before_firstn in Hab|].
  split.
  { intros a b Hab Hkey. apply before_firstn in Hab.
    apply (sorted_reverse_stable date_ltb); [exact Hab|].
    unfold date_ltb. fold (key a) (key b). rewrite Hkey.
    apply string_ltb_irrefl. }
  split.
  { intros a b Ha Hb. apply Hdesc. eapply before_split_firstn; eassumption. }
  intros a b Hab Ha. apply before_firstn, Hdesc in Hab.
  unfold key in Hab at 1. rewrite Ha in Hab. simpl in Hab.
  destruct (key b); [reflexivity | discriminate].
Qed.

(** ** Export *)

Lemma append_assoc (a b c : string) : (a ++ b) ++ c = a ++ (b ++ c).
Proof. induction a as [|x a IH]; simpl; [reflexivity|]. now rewrite IH. Qed.

Lemma append_empty_r (a : string) : a ++ "" = a.
Proof. induction a as [|x a IH]; simpl; [reflexivity|]. now rewrite IH. Qed.

(** X11. For a journal that is not empty, whose sum of sleep qualities
    and number of dreams are below 2^53, [export_analysis] does not reach
    its [except] branch: it returns the export header, the generation time,
    sixty [=], an empty line and then exactly the text of [get_analysis],
    and it sends nothing to the page. *)
Theorem X11_export_wraps_report (now : string) (st : journal) :
  dreams st <> [] -> Inv.exact_sums (dreams st) ->
  exists report,
    get_analysis st = (Ok report, st) /\
    export_analysis now st =
    (Ok (Some ("DREAM JOURNAL ANALYSIS EXPORT" ++ PyStr.nl ++
               "Generated on: " ++ now ++ PyStr.nl ++
               PyStr.repeat "=" 60 ++ PyStr.nl ++ PyStr.nl ++ report)), st).
Proof.
  intros Hds _. eexists. split; [now apply get_analysis_ok|].
  unfold export_analysis, bind, get_dreams.
  destruct (dreams st) as [|d ds] eqn:E; [congruence|].
  rewrite get_analysis_ok by (rewrite E; discriminate).
  rewrite E. unfold PyStr.join. cbn [String.concat].
  rewrite !append_assoc. reflexivity.
Qed.

Lemma X11_export_wraps_report_witness :
  let st := Stats.journal_of Stats.three_dreams in
  dreams st <> [] /\ Inv.exact_sums (dreams st) /\
  exists text, export_analysis "2024-03-06 07:00:00" st = (Ok (Some text), st).
Proof.
  intros st.
  assert (Hne : dreams st <> []) by discriminate.
  assert (Hsums : Inv.exact_sums (dreams st))
    by (split; vm_compute; reflexivity).
  destruct (X11_export_wraps_report "2024-03-06 07:00:00" st Hne Hsums)
    as (report & _ & Hrun).
  split; [exact Hne|]. split; [exact Hsums|]. eexists. exact Hrun.
Defined.

(** ** Searching after a save, and narrowing a search *)

Lemma occurs_in_refl (s : string) : PyStr.occurs_in s s.
Proof.
  exists "", "". simpl. now rewrite append_empty_r.
Qed.

Lemma occurs_in_trans (a b c : string) :
  PyStr.occurs_in a b -> PyStr.occurs_in b c -> PyStr.occurs_in a c.
Proof.
  intros (p1 & q1 & ->) (p2 & q2 & ->).
  exists (p2 ++ p1), (q1 ++ q2). now rewrite !append_assoc.
Qed.

Lemma search_with_app (lower : string -> string) (query : string)
    (ds more : list dream) (file : option (list dream))
    (msgs : list ui_event) :
  query <> "" ->
  fst (search_dreams_with lower query
         {| dreams := (ds ++ more)%list; dreams_json := file; page := msgs |}) =
  Ok (filter (matches_with lower (lower query)) ds ++
      filter (matches_with lower (lower query)) more)%list.
Proof.
  intros Hq. rewrite search_with_nonempty by assumption. cbn [fst dreams].
  now rewrite filter_app.
Qed.

(** X12. Whatever functions strip and lowercase a text: after a valid
    save, a search finds what it found before, in the same order, followed
    by the new dream when the new dream matches; and the new dream does match
    every query whose lowercased form is the lowercased form of its stored
    title, of its stored description or of one of its stored tags. *)
Theorem X12_saved_dream_is_found
    (polarity : string -> option PyFloat.float) (now : string)
    (write_error : option string) (strip lower : string -> string)
    (title description emotion : string) (lucid : bool) (tags : string)
    (sleep_quality : Z) (st : journal) :
  strip title <> "" -> strip description <> "" ->
  let st' := snd (save_dream_with polarity now write_error strip title
                    description emotion lucid tags sleep_quality st) in
  exists d,
    dreams st' = (dreams st ++ [d])%list /\
    Journal.title d = Some (strip title) /\
    Journal.description d = Some (strip description) /\
    Journal.tags d = Some (parse_tags_with strip tags) /\
    (forall query, query <> "" ->
       fst (search_dreams_with lower query st') =
       Ok (filter (matches_with lower (lower query)) (dreams st) ++
           (if matches_with lower (lower query) d then [d] else []))%list) /\
    (forall query,
       lower query = lower (strip title) \/
       lower query = lower (strip description) \/
       (exists tag, In tag (parse_tags_with strip tags) /\
                    lower query = lower tag) ->
       matches_with lower (lower query) d = true).
Proof.
  intros Ht Hd st'. unfold st'. rewrite save_with_run.
  rewrite (proj2 (truthy_not_empty _) Ht), (proj2 (truthy_not_empty _) Hd).
  eexists. split; [reflexivity|]. split; [reflexivity|].
  split; [reflexivity|]. split; [reflexivity|]. split.
  - intros query Hq. cbn [snd]. rewrite search_with_app by assumption.
    reflexivity.
  - unfold matches_with.
    cbn [Journal.title Journal.description Journal.tags dget].
    intros query [E | [E | (tag & Hin & E)]]; rewrite E.
    + rewrite (proj2 (contains_occurs _ _) (occurs_in_refl _)).
      reflexivity.
    + rewrite (proj2 (contains_occurs _ _) (occurs_in_refl _)).
      rewrite orb_true_r. reflexivity.
    + rewrite !orb_true_iff. right. apply existsb_exists.
      exists tag. split; [exact Hin|].
      apply contains_occurs, occurs_in_refl.
Qed.

Lemma X12_saved_dream_is_found_witness :
  let st := Stats.journal_of Stats.three_dreams in
  let st' := snd (save_dream_with (fun _ => None) "2024-03-06 07:00:00" None
                    PyStr.strip " Sky Corridor " "a long corridor" "Curious"
                    false "doors, Night Sky" 6 st) in
  PyStr.strip " Sky Corridor " <> "" /\ PyStr.strip "a long corridor" <> "" /\
  exists d,
    dreams st' = (Stats.three_dreams ++ [d])%list /\
    fst (search_dreams_with PyStr.lower "SKY CORRIDOR" st') = Ok [d] /\
    fst (search_dreams_with PyStr.lower "night sky" st') = Ok [d].
Proof.
  intros st st'.
  assert (H1 : PyStr.strip " Sky Corridor " <> "") by discriminate.
  assert (H2 : PyStr.strip "a long corridor" <> "") by discriminate.
  destruct (X12_saved_dream_is_found (fun _ => None) "2024-03-06 07:00:00"
              None PyStr.strip PyStr.lower " Sky Corridor " "a long corridor"
              "Curious" false "doors, Night Sky" 6 st H1 H2)
    as (d & Hd & _ & _ & _ & Hsearch & Hfind).
  split; [exact H1|]. split; [exact H2|].
  exists d. split; [exact Hd|].
  pose proof (Hfind "SKY CORRIDOR" (or_introl eq_refl)) as Hm1.
  assert (Htag : exists tag,
            In tag (parse_tags_with PyStr.strip "doors, Night Sky") /\
            PyStr.lower "night sky" = PyStr.lower tag)
    by (exists "Night Sky"; split; [simpl; auto | reflexivity]).
  pose proof (Hfind "night sky" (or_intror (or_intror Htag))) as Hm2.
  assert (Hq1 : "SKY CORRIDOR" <> "") by discriminate.
  assert (Hq2 : "night sky" <> "") by discriminate.
  unfold st'. split.
  - rewrite (Hsearch _ Hq1), Hm1. reflexivity.
  - rewrite (Hsearch _ Hq2), Hm2. reflexivity.
Defined.

Lemma matches_with_narrows (lower : string -> string) (q1 q2 : string)
    (d : dream) :
  PyStr.occurs_in (lower q1) (lower q2) ->
  matches_with lower (lower q2) d = true ->
  matches_with lower (lower q1) d = true.
Proof.
  intros Hlow. rewrite !matches_with_record. unfold record_matches_with.
  intros [H | [H | (tag & Hin & H)]].
  - left. eapply occurs_in_trans; eassumption.
  - right. left. eapply occurs_in_trans; eassumption.
  - right. right. exists tag. split; [assumption|].
    eapply occurs_in_trans; eassumption.
Qed.

Lemma filter_narrows {A : Type} (f g : A -> bool) (l : list A) :
  (forall x, f x = true -> g x = true) ->
  filter f (filter g l) = filter f l.
Proof.
  intros Hfg. induction l as [|x l IH]; [reflexivity|]. simpl.
  destruct (g x) eqn:Eg; simpl.
  - now rewrite IH.
  - destruct (f x) eqn:Ef; [|exact IH].
    rewrite (Hfg x Ef) in Eg. discriminate.
Qed.

(** X13. Whatever function lowercases a text: when the lowercased form of
    a query occurs inside the lowercased form of a second one, and neither
    query is empty, the dreams found for the second are those among the
    dreams found for the first that match the second, so they are all found
    for the first, in the same order. *)
Theorem X13_longer_query_narrows (lower : string -> string) (st : journal)
    (q1 q2 : string) :
  q1 <> "" -> q2 <> "" -> PyStr.occurs_in (lower q1) (lower q2) ->
  exists found1 found2,
    fst (search_dreams_with lower q1 st) = Ok found1 /\
    fst (search_dreams_with lower q2 st) = Ok found2 /\
    found2 = filter (matches_with lower (lower q2)) found1 /\
    (forall d, In d found2 -> In d found1) /\
    (forall a b, PySort.before a b found2 -> PySort.before a b found1).
Proof.
  intros Hq1 Hq2 Hsub.
  rewrite !search_with_nonempty by assumption. cbn [fst].
  do 2 eexists. split; [reflexivity|]. split; [reflexivity|].
  assert (Hnarrow :
    filter (matches_with lower (lower q2)) (dreams st) =
    filter (matches_with lower (lower q2))
      (filter (matches_with lower (lower q1)) (dreams st))).
  { symmetry. apply filter_narrows. intros d.
    now apply matches_with_narrows. }
  split; [exact Hnarrow|]. split.
  - intros d Hd. rewrite Hnarrow in Hd. apply filter_In in Hd. tauto.
  - intros a b. rewrite Hnarrow. apply filter_keeps_order.
Qed.

Lemma X13_longer_query_narrows_witness :
  let st := Stats.journal_of Stats.three_dreams in
  "A" <> "" /\ "Cave" <> "" /\
  PyStr.occurs_in (PyStr.lower "A") (PyStr.lower "Cave") /\
  exists x y z,
    fst (search_dreams_with PyStr.lower "A" st) = Ok [x; y; z] /\
    fst (search_dreams_with PyStr.lower "Cave" st) = Ok [y].
Proof.
  intros st.
  assert (H1 : "A" <> "") by discriminate.
  assert (H2 : "Cave" <> "") by discriminate.
  assert (H3 : PyStr.occurs_in (PyStr.lower "A") (PyStr.lower "Cave"))
    by (exists "c", "ve"; reflexivity).
  destruct (X13_longer_query_narrows PyStr.lower st "A" "Cave" H1 H2 H3)
    as (f1 & f2 & E1 & E2 & Hf & _).
  assert (Ha : fst (search_dreams_with PyStr.lower "A" st) =
               Ok Stats.three_dreams) by reflexivity.
  rewrite Ha in E1. injection E1 as <-.
  split; [exact H1|]. split; [exact H2|]. split; [exact H3|].
  do 3 eexists. split; [exact Ha|].
  rewrite E2, Hf. reflexivity.
Defined.

(** ** Dreams that lack keys *)

Lemma lucid_count_app (ds more : list dream) :
  lucid_count (ds ++ more) = (lucid_count ds + lucid_count more)%Z.
Proof.
  unfold lucid_count.
  assert (H : forall l acc,
            fold_left (fun a d => if dget (lucid d) false then (a + 1)%Z else a)
              l acc =
            (acc + fold_left
                     (fun a d => if dget (lucid d) false then (a + 1)%Z else a)
                     l 0)%Z).
  { induction l as [|d l IH]; intros acc; simpl; [lia|].
    rewrite IH. rewrite (IH (if dget (lucid d) false then 1%Z else 0%Z)).
    destruct (dget (lucid d) false); lia. }
  rewrite fold_left_app, H. reflexivity.
Qed.

Lemma in_firstn {A : Type} (x : A) (n : nat) (l : list A) :
  In x (firstn n l) -> In x l.
Proof.
  intros H. rewrite <- (firstn_skipn n l). apply in_or_app. auto.
Qed.

(** X14. A dream loaded without some of its keys is given defaults.
    Without [lucid] it is not counted as lucid, without [sleep_quality] it
    adds 0 to the sum of qualities, without [sentiment] it counts as neutral,
    without [emotion] as Unknown, without [tags] it adds no tag, and without
    [date] its line among the recent dreams ends in the first ten characters
    of the words Unknown date.  A dream with neither title, description nor
    tags is found by no query whose lowercased form is not empty, when the
    empty text lowercases to itself.  While the sum of the sleep qualities
    and the number of dreams stay below 2^53, the analysis of a journal with
    such a dream returns its report. *)
Theorem X14_missing_keys_defaults (ds : list dream) (d : dream) :
  (lucid d = None -> lucid_count (ds ++ [d]) = lucid_count ds) /\
  (sleep_quality d = None -> quality_sum (ds ++ [d]) = quality_sum ds) /\
  (sentiment d = None ->
   sentiments_of (ds ++ [d]) = (sentiments_of ds ++ ["neutral"])%list) /\
  (emotion d = None ->
   emotions_of (ds ++ [d]) = (emotions_of ds ++ ["Unknown"])%list) /\
  (tags d = None -> all_tags (ds ++ [d]) = all_tags ds) /\
  (date d = None ->
   recent_line d = "• " ++ dget (title d) "Untitled" ++ " (Unknown da)") /\
  (title d = None -> description d = None -> tags d = None ->
   forall (lower : string -> string) query st,
     lower "" = "" -> query <> "" -> lower query <> "" ->
     exists found,
       fst (search_dreams_with lower query st) = Ok found /\ ~ In d found) /\
  (forall file msgs,
     Inv.exact_sums (ds ++ [d]) ->
     exists report,
       get_analysis {| dreams := (ds ++ [d])%list; dreams_json := file;
                       page := msgs |} =
       (Ok report, {| dreams := (ds ++ [d])%list; dreams_json := file;
                      page := msgs |})).
Proof.
  split.
  { intros H. rewrite lucid_count_app. unfold lucid_count at 2. simpl.
    rewrite H. simpl. lia. }
  split.
  { intros H. rewrite !quality_sum_total, map_app, fold_right_app. simpl.
    rewrite H. simpl. reflexivity. }
  split.
  { intros H. unfold sentiments_of. rewrite map_app. simpl. now rewrite H. }
  split.
  { intros H. unfold emotions_of. rewrite map_app. simpl. now rewrite H. }
  split.
  { intros H. rewrite !all_tags_flat_map, flat_map_app. simpl.
    rewrite H. simpl. now rewrite app_nil_r. }
  split.
  { intros H. unfold recent_line. rewrite H. reflexivity. }
  split.
  { intros Ht Hd Hg lower query st Hlow Hq Hlq.
    rewrite search_with_nonempty by assumption. cbn [fst].
    eexists. split; [reflexivity|].
    rewrite filter_In. intros [_ Hm]. unfold matches_with in Hm.
    rewrite Ht, Hd, Hg in Hm. cbn [dget existsb] in Hm.
    rewrite Hlow in Hm.
    destruct (lower query) as [|c q]; [congruence|]. simpl in Hm.
    discriminate. }
  intros file msgs _. eexists. apply get_analysis_ok. simpl.
  destruct ds; discriminate.
Qed.

Lemma X14_missing_keys_defaults_witness :
  let d := Inv.no_keys in
  let st := Stats.journal_of (Stats.three_dreams ++ [d]) in
  lucid_count (dreams st) = 1%Z /\ quality_sum (dreams st) = 16%Z /\
  recent_line d = "• Untitled (Unknown da)" /\
  Inv.exact_sums (dreams st) /\
  (exists found,
     fst (search_dreams_with PyStr.lower "n" st) = Ok found /\ ~ In d found) /\
  exists report, get_analysis st = (Ok report, st).
Proof.
  intros d st.
  destruct (X14_missing_keys_defaults Stats.three_dreams d)
    as (Hl & Hq & _ & _ & _ & Hline & Hfind & Hrun).
  assert (Hsums : Inv.exact_sums (dreams st))
    by (split; vm_compute; reflexivity).
  split; [exact (Hl eq_refl)|]. split; [exact (Hq eq_refl)|].
  split; [exact (Hline eq_refl)|]. split; [exact Hsums|]. split.
  - apply (Hfind eq_refl eq_refl eq_refl PyStr.lower "n" st);
      [reflexivity | discriminate | discriminate].
  - exact (Hrun (Some (Stats.three_dreams ++ [d])%list) [] Hsums).
Defined.

(** ** Frequent words *)

Lemma has_char_of_list (c : ascii) (l : list ascii) :
  Inv.has_char c (string_of_list_ascii l) <-> In c l.
Proof. induction l as [|x l IH]; simpl; tauto. Qed.

Lemma words_from_chars (cur : list ascii) (s w : string) :
  (forall c, In c cur -> PyStr.is_word_char c = true) ->
  In w (PyStr.words_from cur s) ->
  w <> "" /\
  forall c, Inv.has_char c w ->
    PyStr.is_word_char c = true /\ (Inv.has_char c s \/ In c cur).
Proof.
  revert cur. induction s as [|x s IH]; intros cur Hcur; simpl.
  - destruct cur as [|y cur]; [intros []|]. intros [<- | []]. split.
    + intros E. apply (f_equal list_ascii_of_string) in E.
      rewrite list_ascii_of_string_of_list_ascii in E. simpl in E.
      destruct (rev cur); discriminate.
    + intros c Hc. apply has_char_of_list, in_rev in Hc. auto.
  - destruct (PyStr.is_word_char x) eqn:Ex.
    + intros Hw.
      destruct (IH (x :: cur)) as [Hne Hch]; [|exact Hw|].
      * intros c [<- | Hc]; auto.
      * split; [exact Hne|]. intros c Hc.
        destruct (Hch c Hc) as [Hwc [H | [<- | H]]]; auto.
    + assert (Hrest : In w (PyStr.words_from [] s) ->
                w <> "" /\
                forall c, Inv.has_char c w ->
                  PyStr.is_word_char c = true /\
                  ((x = c \/ Inv.has_char c s) \/ In c cur)).
      { intros Hw. destruct (IH [] (fun c (H : In c []) => match H with end) Hw)
          as [Hne Hch].
        split; [exact Hne|]. intros c Hc.
        destruct (Hch c Hc) as [Hwc [H | []]]. auto. }
      destruct cur as [|y cur]; [exact Hrest|].
      intros [<- | Hw]; [|auto]. split.
      * intros E. apply (f_equal list_ascii_of_string) in E.
        rewrite list_ascii_of_string_of_list_ascii in E. simpl in E.
        destruct (rev cur); discriminate.
      * intros c Hc. apply has_char_of_list, in_rev in Hc. auto.
Qed.

Lemma lower_char_idempotent (c : ascii) :
  PyStr.lower_char (PyStr.lower_char c) = PyStr.lower_char c.
Proof. destruct c as [[] [] [] [] [] [] [] []]; reflexivity. Qed.

Lemma has_char_lower (c : ascii) (s : string) :
  Inv.has_char c (PyStr.lower s) -> PyStr.lower_char c = c.
Proof.
  induction s as [|x s IH]; simpl; [tauto|].
  intros [<- | H]; [apply lower_char_idempotent | auto].
Qed.

Lemma lower_fixed (w : string) :
  (forall c, Inv.has_char c w -> PyStr.lower_char c = c) -> PyStr.lower w = w.
Proof.
  induction w as [|x w IH]; intros H; simpl; [reflexivity|].
  rewrite (H x) by (simpl; auto). rewrite IH; [reflexivity|].
  intros c Hc. apply H. simpl. auto.
Qed.

(** X15. When the descriptions are ASCII text, the frequent words of the
    report are at most ten; each one is a non-empty run of ASCII letters,
    digits and underscores, holds no capital letter, so that words differing
    only in case are counted together, and is shown with the number of times
    it occurs among the words of all the descriptions. *)
Theorem X15_frequent_words (ds : list dream) :
  (forall d, In d ds -> PyStr.ascii_text (dget (description d) "") = true) ->
  let text := PyStr.join " " (map (fun d => dget (description d) "") ds) in
  let words := PyStr.findall_words (PyStr.lower text) in
  List.length (common_words ds) <= 10 /\
  forall w n, In (w, n) (common_words ds) ->
    w <> "" /\
    (forall c, Inv.has_char c w -> PyStr.is_word_char c = true) /\
    PyStr.lower w = w /\
    n = count_occ string_dec words w /\ 0 < n.
Proof.
  intros _ text words. split.
  - unfold common_words, Counter.most_common. apply firstn_le_length.
  - intros w n Hin. unfold common_words, Counter.most_common in Hin.
    fold text in Hin. fold words in Hin.
    apply in_firstn, sorted_reverse_in, counter_entry in Hin.
    destruct Hin as [Hn Hpos].
    assert (Hw : In w words)
      by (apply (count_occ_In string_dec); lia).
    destruct (words_from_chars [] _ w
                (fun c (H : In c []) => match H with end) Hw) as [Hne Hch].
    split; [exact Hne|]. split; [intros c Hc; apply (Hch c Hc)|].
    split; [|auto].
    apply lower_fixed. intros c Hc.
    destruct (Hch c Hc) as [_ [H | []]]. eapply has_char_lower, H.
Qed.

Lemma X15_frequent_words_witness :
  let ds := Stats.three_dreams in
  (forall d, In d ds -> PyStr.ascii_text (dget (description d) "") = true) /\
  In ("cave", 2) (common_words ds) /\
  PyStr.lower "cave" = "cave".
Proof.
  intros ds.
  assert (Hascii : forall d, In d ds ->
            PyStr.ascii_text (dget (description d) "") = true)
    by (intros d [<- | [<- | [<- | []]]]; reflexivity).
  assert (Hin : In ("cave", 2) (common_words ds)) by (simpl; auto).
  destruct (X15_frequent_words ds Hascii) as [_ Hwords].
  destruct (Hwords "cave" 2 Hin) as (_ & _ & Hlow & _).
  split; [exact Hascii|]. split; [exact Hin | exact Hlow].
Defined.

(** ** Charts *)

Section PlotFacts.

Variable D : Type.
Variable strptime : string -> option D.






End PlotFacts.



(** ** The word cloud *)

Lemma cloud_parts_flat_map (ds : list dream) :
  Views.cloud_parts ds =
  flat_map (fun d => dget (title d) "" :: dget (description d) "" ::
                     dget (tags d) []) ds.
Proof.
  unfold Views.cloud_parts.
  assert (H : forall acc,
    fold_left
      (fun all_text d =>
         ((all_text ++ [dget (title d) ""]) ++ [dget (description d) ""]) ++
         dget (tags d) [])%list ds acc =
    (acc ++ flat_map (fun d => dget (title d) "" :: dget (description d) "" ::
                               dget (tags d) []) ds)%list).
  { induction ds as [|d ds IH]; intros acc; simpl.
    - now rewrite app_nil_r.
    - rewrite IH, <- !app_assoc. reflexivity. }
  apply H.
Qed.

Lemma occurs_in_join (sep part : string) (parts : list string) :
  In part parts -> PyStr.occurs_in part (PyStr.join sep parts).
Proof.
  unfold PyStr.join.
  induction parts as [|x parts IH]; [intros []|].
  intros [<- | Hin].
  - destruct parts as [|y parts]; simpl.
    + apply occurs_in_refl.
    + exists "", (sep ++ String.concat sep (y :: parts)). reflexivity.
  - destruct (IH Hin) as (pre & post & E).
    destruct parts as [|y parts]; [destruct Hin|].
    exists (x ++ sep ++ pre), post.
    change (String.concat sep (x :: y :: parts))
      with (x ++ sep ++ String.concat sep (y :: parts)).
    rewrite E, !append_assoc. reflexivity.
Qed.

Lemma blank_app (a b : string) :
  Inv.blank (a ++ b) = Inv.blank a && Inv.blank b.
Proof.
  induction a as [|c a IH]; simpl; [reflexivity|].
  now rewrite IH, andb_assoc.
Qed.

Lemma blank_join_space (parts : list string) :
  Inv.blank (PyStr.join " " parts) = forallb Inv.blank parts.
Proof.
  unfold PyStr.join.
  induction parts as [|x parts IH]; [reflexivity|].
  destruct parts as [|y parts].
  - simpl. now rewrite andb_true_r.
  - change (String.concat " " (x :: y :: parts))
      with (x ++ " " ++ String.concat " " (y :: parts)).
    rewrite !blank_app, IH. reflexivity.
Qed.

Section CloudFacts.

Variable I : Type.
Variable generate : string -> I + string.

(** X18. For a journal that is not empty, whose titles, descriptions and
    tags are ASCII text, the text given to the word cloud holds every title,
    every description and every tag.  When all of them are whitespace the
    method reports that there is no text and returns nothing without calling
    the generator; otherwise it returns the generator's image, and a failure
    of the generator is reported on the page and returns nothing instead of
    raising. *)
Theorem X18_word_cloud_text (st : journal) :
  dreams st <> [] ->
  (forall part, In part (Views.cloud_parts (dreams st)) ->
     PyStr.ascii_text part = true) ->
  let parts := Views.cloud_parts (dreams st) in
  let text := PyStr.join " " parts in
  (forall d, In d (dreams st) ->
     PyStr.occurs_in (dget (title d) "") text /\
     PyStr.occurs_in (dget (description d) "") text /\
     forall tag, In tag (dget (tags d) []) -> PyStr.occurs_in tag text) /\
  ((forall part, In part parts -> Inv.blank part = true) ->
   Views.show_word_cloud I generate st =
   (Views.Nothing,
    {| dreams := dreams st; dreams_json := dreams_json st;
       page := (page st ++
                [st_info "No text data available for word cloud!"])%list |})) /\
  ((exists part, In part parts /\ Inv.blank part = false) ->
   Views.show_word_cloud I generate st =
   match generate text with
   | inl image => (Views.Shown image, st)
   | inr e =>
       (Views.Nothing,
        {| dreams := dreams st; dreams_json := dreams_json st;
           page := (page st ++
                    [st_error ("Could not generate word cloud: " ++ e)])%list |})
   end).
Proof.
  intros Hne _ parts text.
  assert (Hrun : Views.show_word_cloud I generate st =
    if Inv.blank text then
      (Views.Nothing,
       {| dreams := dreams st; dreams_json := dreams_json st;
          page := (page st ++
                   [st_info "No text data available for word cloud!"])%list |})
    else
      match generate text with
      | inl image => (Views.Shown image, st)
      | inr e =>
          (Views.Nothing,
           {| dreams := dreams st; dreams_json := dreams_json st;
              page := (page st ++
                       [st_error ("Could not generate word cloud: " ++ e)])%list |})
      end).
  { unfold text, parts. clear text parts.
    destruct st as [stored file msgs]. unfold Views.show_word_cloud.
    cbn [dreams dreams_json page] in *.
    destruct stored as [|d ds]; [congruence|].
    rewrite truthy_strip_blank.
    destruct (Inv.blank _); [reflexivity|].
    destruct (generate _); reflexivity. }
  split.
  { intros d Hd.
    assert (Hpart : forall part,
              In part (dget (title d) "" :: dget (description d) "" ::
                       dget (tags d) []) -> PyStr.occurs_in part text).
    { intros part Hp. apply occurs_in_join. unfold parts.
      rewrite cloud_parts_flat_map. apply in_flat_map. eauto. }
    split; [apply Hpart; simpl; auto|].
    split; [apply Hpart; simpl; auto|].
    intros tag Htag. apply Hpart. simpl. auto. }
  split.
  - intros Hall. rewrite Hrun. unfold text. rewrite blank_join_space.
    rewrite (proj2 (forallb_forall _ _) Hall). reflexivity.
  - intros (part & Hin & Hpart). rewrite Hrun. unfold text.
    rewrite blank_join_space.
    destruct (forallb Inv.blank parts) eqn:E; [|reflexivity].
    rewrite forallb_forall in E. rewrite (E part Hin) in Hpart. discriminate.
Qed.

End CloudFacts.

Lemma X18_word_cloud_text_witness :
  let draw := fun text : string =>
    if String.eqb text "" then inr "empty" else inl (String.length text) in
  let st := Stats.journal_of Stats.three_dreams in
  dreams st <> [] /\
  (forall part, In part (Views.cloud_parts (dreams st)) ->
     PyStr.ascii_text part = true) /\
  (exists part, In part (Views.cloud_parts (dreams st)) /\
                Inv.blank part = false) /\
  Views.show_word_cloud nat draw st = (Views.Shown 91, st).
Proof.
  intros draw st.
  assert (Hne : dreams st <> []) by discriminate.
  assert (Hpart : exists part, In part (Views.cloud_parts (dreams st)) /\
                               Inv.blank part = false)
    by (exists "Flight"; split; [simpl; auto | reflexivity]).
  assert (Hascii : forall part, In part (Views.cloud_parts (dreams st)) ->
                     PyStr.ascii_text part = true).
  { intros part Hin. simpl in Hin.
    repeat (destruct Hin as [<- | Hin]; [reflexivity|]). destruct Hin. }
  destruct (X18_word_cloud_text nat draw st Hne Hascii) as (_ & _ & Hrun).
  split; [exact Hne|]. split; [exact Hascii|]. split; [exact Hpart|].
  rewrite (Hrun Hpart). reflexivity.
Defined.

(** ** The listing *)



